(** * epack-collector-github: the aggregation engine

    A shallow embedding of the collector package
    (internal/collector: pattern matching, scope filter, metrics
    aggregator, posture calculation, collection orchestration) and of the
    part of the client package (internal/github) that decides what the
    collector sees, followed by the properties its specification
    states about them.

    Layout: the embedding first (one part per source file), then the
    reference definitions the specification is compared with, then the
    concrete inputs used by examples, then the theorems. *)

From Stdlib Require Import ZArith List String Ascii Bool Lia.
From Stdlib Require Import DecimalString Permutation.
Import ListNotations.

Local Open Scope string_scope.
Local Open Scope Z_scope.

(* ================================================================== *)
(** * Part I: the embedding                                            *)
(* ================================================================== *)

(** ** Go's [int]

    The counters and percentages are Go [int]s: 64-bit two's complement
    on the platforms the collector is built for.  Addition and
    multiplication wrap around, division truncates toward zero. *)

Module GoInt.

Definition min_int : Z := - 2 ^ 63.
Definition max_int : Z := 2 ^ 63 - 1.

Definition in_range (z : Z) : Prop := min_int <= z <= max_int.

Definition in_rangeb (z : Z) : bool := (min_int <=? z) && (z <=? max_int).

(** The value a 64-bit register holds after an operation whose exact
    result is [z]. *)
Definition wrap (z : Z) : Z := (z + 2 ^ 63) mod 2 ^ 64 - 2 ^ 63.

Definition add (a b : Z) : Z := wrap (a + b).
Definition mul (a b : Z) : Z := wrap (a * b).

(** [a / b] for [b <> 0]; Go panics on a zero divisor, and every
    division below sits behind a test that excludes it. *)
Definition quo (a b : Z) : Z := wrap (Z.quot a b).

(** [x++] *)
Definition incr (a : Z) : Z := add a 1.

(** [if b { x++ }] *)
Definition incr_if (b : bool) (a : Z) : Z := if b then incr a else a.

End GoInt.

Import GoInt.

(** ** Errors and results

    A Go error is represented by its message; [fmt.Errorf("ctx: %w", err)]
    prefixes the message.  A call returning [(value, error)] is a
    [result]: the callers below test [err != nil] first and use the value
    only when it is nil. *)

Definition error : Type := string.

Inductive result (A : Type) : Type :=
| Ok (a : A)
| Err (e : error).

Arguments Ok {A} a.
Arguments Err {A} e.

Definition Errorf (context : string) (err : error) : error :=
  context ++ ": " ++ err.

(** ** constants.go *)

Definition DefaultIncludePattern : string := "*".
Definition NumSecurityFeatures : Z := 5.
Definition MaxPercentage : Z := 100.

(** ** github/queries.go: the repository record *)

Record BranchProtectionRule : Type := {
  RequiresApprovingReviews : bool;
  RequiredApprovingReviewCount : Z;
  DismissesStaleReviews : bool;
  RequiresCodeOwnerReviews : bool;
  RequiresStatusChecks : bool;
  RequiresCommitSignatures : bool;
  IsAdminEnforced : bool
}.

(** [Owner.Login] and [DefaultBranchRef.{Name, BranchProtectionRule}] are
    flattened; the rule is a pointer, [None] when nil. *)
Record Repository : Type := {
  Name : string;
  OwnerLogin : string;
  Visibility : string;
  DefaultBranchName : string;
  BranchProtection : option BranchProtectionRule;
  HasVulnerabilityAlertsEnabled : bool
}.

(** ** github/client.go: settings and organisation security *)

Record SecuritySettings : Type := {
  SecretScanning : bool;
  SecretScanningPushProtection : bool;
  DependabotSecurityUpdates : bool;
  CodeScanningEnabled : bool
}.

(** [TwoFactorRequired *bool]: [None] is the nil pointer. *)
Record OrgSecurity : Type := {
  TwoFactorRequired : option bool
}.

(** The [GitHubClient] interface.  A client talks to the network, so each
    method threads the state of the world [W].  [FetchRepositories] hands
    the pages to its callback one by one and returns an error or nil; the
    callback [Collect] passes never fails and does not touch the client,
    so what a call does is described by the pages it delivered and the
    error it returned. *)
Record GitHubClient (W : Type) : Type := {
  FetchOrgSecurity : string -> W -> result OrgSecurity * W;
  FetchRepositories : string -> W -> (list (list Repository) * option error) * W;
  FetchSecuritySettings : string -> string -> W -> result SecuritySettings * W
}.

Arguments FetchOrgSecurity {W} _ _ _.
Arguments FetchRepositories {W} _ _ _.
Arguments FetchSecuritySettings {W} _ _ _ _.

(** [Client.FetchOrgSecurity]: the two-factor flag is read over REST
    ([fetchOrgTwoFactorREST], whose answer is an error, or a flag that
    the response may leave out); when that fails the field stays nil and
    the call itself still succeeds. *)
Definition ClientFetchOrgSecurity {W : Type}
  (fetchOrgTwoFactorREST : string -> W -> result (option bool) * W)
  (org : string) (w : W) : result OrgSecurity * W :=
  let '(rest, w') := fetchOrgTwoFactorREST org w in
  let result0 := {| TwoFactorRequired := None |} in
  let result1 :=
    match rest with
    | Ok twoFA => {| TwoFactorRequired := twoFA |}
    | Err _ => result0
    end in
  (Ok result1, w').

(** ** The [regexp] package, as far as the matcher uses it

    [regexp.Compile] and [Regexp.MatchString] belong to Go's standard
    library.  They are modelled on the fragment of the syntax that
    [MatchesPattern] can emit: the text anchors, the dot, literals,
    escaped punctuation and a star after a dot or a literal.  With the
    flags [Compile] uses, the dot matches every character except a line
    feed, [^] and [$] match only at the two ends of the text, and
    [MatchString] looks for a match starting anywhere in the text.
    Anything outside the fragment (groups, classes, alternation, other
    repetitions, escapes of letters and digits) is rejected by this
    [Compile]; the translation never produces it.

    Scope of the model.  A Rocq character stands for one rune, which is
    what Go sees on ASCII text, where every byte is a rune of its own.
    On other text Go decodes UTF-8, several bytes to a rune and an
    invalid byte to U+FFFD, and this model does not follow it there.
    Go's [Compile] also refuses an expression beyond the size limit of
    the [regexp/syntax] package (some three million instructions); the
    model has no such limit.  The properties below that depend on the
    characters of a name or of a pattern are therefore stated for ASCII
    text and for patterns far below that limit. *)

Module Regexp.

Inductive class : Type :=
| AnyCharNotNL
| Literal (c : ascii).

Inductive inst : Type :=
| BeginText
| EndText
| One (k : class)
| Star (k : class).

Definition Regexp : Type := list inst.

Definition newline : ascii := ascii_of_nat 10.

Definition isalnum (c : ascii) : bool :=
  let n := N_of_ascii c in
  (((48 <=? n) && (n <=? 57)) || ((65 <=? n) && (n <=? 90))
   || ((97 <=? n) && (n <=? 122)))%N.

(** A backslash may precede any ASCII character that is not a letter or
    a digit; the pair stands for that character. *)
Definition escapable (c : ascii) : bool :=
  (N_of_ascii c <? 128)%N && negb (isalnum c).

Definition is_meta (c : ascii) : bool :=
  existsb (Ascii.eqb c)
    ["\"; "."; "+"; "*"; "?"; "("; ")"; "|"; "["; "]"; "{"; "}"; "^"; "$"]%char.

Definition with_inst (i : inst) (r : option Regexp) : option Regexp :=
  option_map (cons i) r.

(** A star binds to the atom before it, so the parser looks one
    character ahead after every atom. *)
Fixpoint parse (s : string) : option Regexp :=
  match s with
  | EmptyString => Some []
  | String c rest =>
    if (c =? "^")%char then with_inst BeginText (parse rest)
    else if (c =? "$")%char then with_inst EndText (parse rest)
    else if (c =? "\")%char then
      match rest with
      | EmptyString => None
      | String e rest' =>
        if escapable e then
          match rest' with
          | EmptyString => with_inst (One (Literal e)) (parse rest')
          | String n rest'' =>
            if (n =? "*")%char
            then with_inst (Star (Literal e)) (parse rest'')
            else with_inst (One (Literal e)) (parse rest')
          end
        else None
      end
    else if is_meta c && negb (c =? ".")%char then None
    else
      let k := if (c =? ".")%char then AnyCharNotNL else Literal c in
      match rest with
      | EmptyString => with_inst (One k) (parse rest)
      | String n rest' =>
        if (n =? "*")%char
        then with_inst (Star k) (parse rest')
        else with_inst (One k) (parse rest)
      end
  end.

Definition Compile (expr : string) : result Regexp :=
  match parse expr with
  | Some re => Ok re
  | None => Err ("error parsing regexp: " ++ expr)
  end.

Definition accepts (k : class) (c : ascii) : bool :=
  match k with
  | AnyCharNotNL => negb (c =? newline)%char
  | Literal l => (c =? l)%char
  end.

(** Zero or more characters of class [k], then the rest of the
    expression [cont]; the longest run is not preferred over the others
    since only the existence of a match is asked for. *)
Fixpoint star_loop (k : class) (cont : bool -> string -> bool)
  (at_start : bool) (s : string) : bool :=
  cont at_start s ||
  match s with
  | EmptyString => false
  | String c s' => accepts k c && star_loop k cont false s'
  end.

(** [match_here re at_start s]: [re] matches a prefix of [s], where
    [at_start] tells whether [s] begins at the beginning of the text. *)
Fixpoint match_here (re : Regexp) (at_start : bool) (s : string) : bool :=
  match re with
  | [] => true
  | BeginText :: re' => at_start && match_here re' at_start s
  | EndText :: re' =>
    match s with
    | EmptyString => match_here re' at_start s
    | String _ _ => false
    end
  | One k :: re' =>
    match s with
    | EmptyString => false
    | String c s' => accepts k c && match_here re' false s'
    end
  | Star k :: re' => star_loop k (match_here re') at_start s
  end.

Fixpoint search (re : Regexp) (at_start : bool) (s : string) : bool :=
  match_here re at_start s ||
  match s with
  | EmptyString => false
  | String _ s' => search re false s'
  end.

Definition MatchString (re : Regexp) (s : string) : bool := search re true s.

End Regexp.

(** ** collector/pattern.go *)

(** One turn of the loop over the pattern's characters: what is written
    to the builder [b] for [char].  The loop ranges over runes; a
    character of the model is one rune (see the scope of the model of
    [regexp] above). *)
Definition writeGlobChar (b : string) (char : ascii) : string :=
  if (char =? "*")%char then b ++ ".*"
  else if (char =? "?")%char then b ++ "."
  else if existsb (Ascii.eqb char)
            ["."; "+"; "^"; "$"; "{"; "}"; "("; ")"; "|"; "["; "]"; "\"]%char
  then b ++ String "\" (String char EmptyString)
  else b ++ String char EmptyString.

Fixpoint writeGlob (b : string) (pattern : string) : string :=
  match pattern with
  | EmptyString => b
  | String char rest => writeGlob (writeGlobChar b char) rest
  end.

Definition regexPattern (pattern : string) : string :=
  writeGlob "^" pattern ++ "$".

Definition MatchesPattern (name pattern : string) : bool :=
  if (pattern =? "*")%string then true
  else
    match Regexp.Compile (regexPattern pattern) with
    | Err _ => false
    | Ok re => Regexp.MatchString re name
    end.

(** [for _, pattern := range patterns { if MatchesPattern(..) { return v } }]:
    [true] when the loop returned. *)
Fixpoint anyMatches (repoName : string) (patterns : list string) : bool :=
  match patterns with
  | [] => false
  | pattern :: rest =>
    if MatchesPattern repoName pattern then true
    else anyMatches repoName rest
  end.

Definition ShouldIncludeRepo (repoName : string)
  (includePatterns excludePatterns : list string) : bool :=
  if anyMatches repoName excludePatterns then false
  else if anyMatches repoName includePatterns then true
  else false.

(** ** collector/metrics.go *)

Record repoInfo : Type := {
  owner : string;
  name : string
}.

Record metricsAggregator : Type := {
  totalRepos : Z;
  excludedRepos : Z;
  repos : list repoInfo;
  branchProtectionEnabled : Z;
  requirePullRequest : Z;
  requireApprovingReviews : Z;
  dismissStaleReviews : Z;
  requireCodeOwnerReviews : Z;
  requireStatusChecks : Z;
  requireSignedCommits : Z;
  enforceAdmins : Z;
  vulnerabilityAlertsEnabled : Z;
  codeScanningEnabled : Z;
  secretScanningEnabled : Z;
  secretScanningPushProtection : Z;
  dependabotSecurityUpdatesEnabled : Z
}.

(** [&metricsAggregator{}] *)
Definition newMetrics : metricsAggregator := {|
  totalRepos := 0;
  excludedRepos := 0;
  repos := [];
  branchProtectionEnabled := 0;
  requirePullRequest := 0;
  requireApprovingReviews := 0;
  dismissStaleReviews := 0;
  requireCodeOwnerReviews := 0;
  requireStatusChecks := 0;
  requireSignedCommits := 0;
  enforceAdmins := 0;
  vulnerabilityAlertsEnabled := 0;
  codeScanningEnabled := 0;
  secretScanningEnabled := 0;
  secretScanningPushProtection := 0;
  dependabotSecurityUpdatesEnabled := 0
|}.

Definition countBranchProtection (repo : Repository) (m : metricsAggregator)
  : metricsAggregator :=
  match BranchProtection repo with
  | None => m
  | Some bp => {|
      totalRepos := totalRepos m;
      excludedRepos := excludedRepos m;
      repos := repos m;
      branchProtectionEnabled := incr (branchProtectionEnabled m);
      requirePullRequest :=
        incr_if (RequiresApprovingReviews bp) (requirePullRequest m);
      requireApprovingReviews :=
        incr_if (RequiresApprovingReviews bp) (requireApprovingReviews m);
      dismissStaleReviews :=
        incr_if (DismissesStaleReviews bp) (dismissStaleReviews m);
      requireCodeOwnerReviews :=
        incr_if (RequiresCodeOwnerReviews bp) (requireCodeOwnerReviews m);
      requireStatusChecks :=
        incr_if (RequiresStatusChecks bp) (requireStatusChecks m);
      requireSignedCommits :=
        incr_if (RequiresCommitSignatures bp) (requireSignedCommits m);
      enforceAdmins := incr_if (IsAdminEnforced bp) (enforceAdmins m);
      vulnerabilityAlertsEnabled := vulnerabilityAlertsEnabled m;
      codeScanningEnabled := codeScanningEnabled m;
      secretScanningEnabled := secretScanningEnabled m;
      secretScanningPushProtection := secretScanningPushProtection m;
      dependabotSecurityUpdatesEnabled := dependabotSecurityUpdatesEnabled m
    |}
  end.

(** [m.excludedRepos++] *)
Definition countExcluded (m : metricsAggregator) : metricsAggregator := {|
  totalRepos := totalRepos m;
  excludedRepos := incr (excludedRepos m);
  repos := repos m;
  branchProtectionEnabled := branchProtectionEnabled m;
  requirePullRequest := requirePullRequest m;
  requireApprovingReviews := requireApprovingReviews m;
  dismissStaleReviews := dismissStaleReviews m;
  requireCodeOwnerReviews := requireCodeOwnerReviews m;
  requireStatusChecks := requireStatusChecks m;
  requireSignedCommits := requireSignedCommits m;
  enforceAdmins := enforceAdmins m;
  vulnerabilityAlertsEnabled := vulnerabilityAlertsEnabled m;
  codeScanningEnabled := codeScanningEnabled m;
  secretScanningEnabled := secretScanningEnabled m;
  secretScanningPushProtection := secretScanningPushProtection m;
  dependabotSecurityUpdatesEnabled := dependabotSecurityUpdatesEnabled m
|}.

(** [m.totalRepos++; m.repos = append(m.repos, repoInfo{..})] *)
Definition countIncluded (repo : Repository) (m : metricsAggregator)
  : metricsAggregator := {|
  totalRepos := incr (totalRepos m);
  excludedRepos := excludedRepos m;
  repos := repos m ++ [{| owner := OwnerLogin repo; name := Name repo |}];
  branchProtectionEnabled := branchProtectionEnabled m;
  requirePullRequest := requirePullRequest m;
  requireApprovingReviews := requireApprovingReviews m;
  dismissStaleReviews := dismissStaleReviews m;
  requireCodeOwnerReviews := requireCodeOwnerReviews m;
  requireStatusChecks := requireStatusChecks m;
  requireSignedCommits := requireSignedCommits m;
  enforceAdmins := enforceAdmins m;
  vulnerabilityAlertsEnabled := vulnerabilityAlertsEnabled m;
  codeScanningEnabled := codeScanningEnabled m;
  secretScanningEnabled := secretScanningEnabled m;
  secretScanningPushProtection := secretScanningPushProtection m;
  dependabotSecurityUpdatesEnabled := dependabotSecurityUpdatesEnabled m
|}.

(** [if repo.HasVulnerabilityAlertsEnabled { m.vulnerabilityAlertsEnabled++ }] *)
Definition countVulnerabilityAlerts (repo : Repository) (m : metricsAggregator)
  : metricsAggregator := {|
  totalRepos := totalRepos m;
  excludedRepos := excludedRepos m;
  repos := repos m;
  branchProtectionEnabled := branchProtectionEnabled m;
  requirePullRequest := requirePullRequest m;
  requireApprovingReviews := requireApprovingReviews m;
  dismissStaleReviews := dismissStaleReviews m;
  requireCodeOwnerReviews := requireCodeOwnerReviews m;
  requireStatusChecks := requireStatusChecks m;
  requireSignedCommits := requireSignedCommits m;
  enforceAdmins := enforceAdmins m;
  vulnerabilityAlertsEnabled :=
    incr_if (HasVulnerabilityAlertsEnabled repo) (vulnerabilityAlertsEnabled m);
  codeScanningEnabled := codeScanningEnabled m;
  secretScanningEnabled := secretScanningEnabled m;
  secretScanningPushProtection := secretScanningPushProtection m;
  dependabotSecurityUpdatesEnabled := dependabotSecurityUpdatesEnabled m
|}.

Definition processRepository (repo : Repository)
  (includePatterns excludePatterns : list string) (m : metricsAggregator)
  : metricsAggregator :=
  if negb (ShouldIncludeRepo (Name repo) includePatterns excludePatterns)
  then countExcluded m
  else countVulnerabilityAlerts repo
         (countBranchProtection repo (countIncluded repo m)).

Definition countSecuritySettings (settings : SecuritySettings)
  (m : metricsAggregator) : metricsAggregator := {|
  totalRepos := totalRepos m;
  excludedRepos := excludedRepos m;
  repos := repos m;
  branchProtectionEnabled := branchProtectionEnabled m;
  requirePullRequest := requirePullRequest m;
  requireApprovingReviews := requireApprovingReviews m;
  dismissStaleReviews := dismissStaleReviews m;
  requireCodeOwnerReviews := requireCodeOwnerReviews m;
  requireStatusChecks := requireStatusChecks m;
  requireSignedCommits := requireSignedCommits m;
  enforceAdmins := enforceAdmins m;
  vulnerabilityAlertsEnabled := vulnerabilityAlertsEnabled m;
  codeScanningEnabled :=
    incr_if (CodeScanningEnabled settings) (codeScanningEnabled m);
  secretScanningEnabled :=
    incr_if (SecretScanning settings) (secretScanningEnabled m);
  secretScanningPushProtection :=
    incr_if (SecretScanningPushProtection settings)
            (secretScanningPushProtection m);
  dependabotSecurityUpdatesEnabled :=
    incr_if (DependabotSecurityUpdates settings)
            (dependabotSecurityUpdatesEnabled m)
|}.

(** ** collector.go: [percent] *)

Definition percent (count total : Z) : Z :=
  if total =? 0 then 0
  else quo (mul count MaxPercentage) total.

(** ** collector/metrics.go: from counts to percentages *)

Definition securityFeaturesTotal (m : metricsAggregator) : Z :=
  add (add (add (add (vulnerabilityAlertsEnabled m) (codeScanningEnabled m))
                (secretScanningEnabled m))
           (secretScanningPushProtection m))
      (dependabotSecurityUpdatesEnabled m).

Definition securityFeaturesCoverage (m : metricsAggregator) : Z :=
  if totalRepos m =? 0 then 0
  else
    let total := securityFeaturesTotal m in
    quo (mul total MaxPercentage) (mul (totalRepos m) NumSecurityFeatures).

(** ** collector/types.go *)

Definition SchemaVersion : string := "1.0.0".

Record Scope : Type := {
  IncludePatterns : list string;
  ExcludePatterns : list string;
  RepositoriesCoverage : Z
}.

Record Posture : Type := {
  BranchProtectionCoverage : Z;
  SecurityFeaturesCoverage : Z
}.

Record AccessControl : Type := {
  AccessTwoFactorRequired : option bool
}.

Record BranchProtectionRules : Type := {
  PullRequestRequired : Z;
  ApprovingReviews : Z;
  DismissStaleReviews : Z;
  CodeOwnerReviews : Z;
  StatusChecks : Z;
  SignedCommits : Z;
  AdminEnforcement : Z
}.

Record SecurityFeatures : Type := {
  VulnerabilityAlerts : Z;
  CodeScanning : Z;
  FeatureSecretScanning : Z;
  FeatureSecretScanningPushProtection : Z;
  FeatureDependabotSecurityUpdates : Z
}.

Record OrgPosture : Type := {
  PostureSchemaVersion : string;
  CollectedAt : string;
  Organization : string;
  PostureScope : Scope;
  PosturePosture : Posture;
  PostureAccessControl : AccessControl;
  PostureBranchProtectionRules : BranchProtectionRules;
  PostureSecurityFeatures : SecurityFeatures
}.

(** The part of [Config] that [Collect] reads. *)
Record Config : Type := {
  ConfigOrganization : string;
  ConfigIncludePatterns : list string;
  ConfigExcludePatterns : list string
}.

(** ** collector/metrics.go: the two breakdowns *)

Definition toBranchProtectionRules (m : metricsAggregator)
  : BranchProtectionRules := {|
  PullRequestRequired := percent (requirePullRequest m) (totalRepos m);
  ApprovingReviews := percent (requireApprovingReviews m) (totalRepos m);
  DismissStaleReviews := percent (dismissStaleReviews m) (totalRepos m);
  CodeOwnerReviews := percent (requireCodeOwnerReviews m) (totalRepos m);
  StatusChecks := percent (requireStatusChecks m) (totalRepos m);
  SignedCommits := percent (requireSignedCommits m) (totalRepos m);
  AdminEnforcement := percent (enforceAdmins m) (totalRepos m)
|}.

Definition toSecurityFeatures (m : metricsAggregator) : SecurityFeatures := {|
  VulnerabilityAlerts := percent (vulnerabilityAlertsEnabled m) (totalRepos m);
  CodeScanning := percent (codeScanningEnabled m) (totalRepos m);
  FeatureSecretScanning := percent (secretScanningEnabled m) (totalRepos m);
  FeatureSecretScanningPushProtection :=
    percent (secretScanningPushProtection m) (totalRepos m);
  FeatureDependabotSecurityUpdates :=
    percent (dependabotSecurityUpdatesEnabled m) (totalRepos m)
|}.

(** ** collector.go: the orchestrator

    The calls of the status and progress callbacks, which only report,
    are left out. *)

Record Collector (W : Type) : Type := {
  client : GitHubClient W;
  config : Config
}.

Arguments client {W} _.
Arguments config {W} _.

(** What [Collect] returns: [(posture, nil)] or [(nil, err)]. *)
Inductive outcome : Type :=
| Report (posture : OrgPosture)
| Failed (err : error).

(** The callback of [FetchRepositories], run on one page. *)
Definition processPage (includePatterns excludePatterns : list string)
  (m : metricsAggregator) (page : list Repository) : metricsAggregator :=
  fold_left (fun m repo => processRepository repo includePatterns excludePatterns m)
            page m.

Definition processPages (includePatterns excludePatterns : list string)
  (m : metricsAggregator) (pages : list (list Repository)) : metricsAggregator :=
  fold_left (processPage includePatterns excludePatterns) pages m.

(** The loop of [fetchSecuritySettings] over [metrics.repos]. *)
Fixpoint fetchSecuritySettingsLoop {W : Type} (c : Collector W)
  (rs : list repoInfo) (metrics : metricsAggregator) (w : W)
  : metricsAggregator * W :=
  match rs with
  | [] => (metrics, w)
  | repo :: rest =>
    let '(r, w') := FetchSecuritySettings (client c) (owner repo) (name repo) w in
    match r with
    | Err _ => fetchSecuritySettingsLoop c rest metrics w'
    | Ok settings =>
      fetchSecuritySettingsLoop c rest (countSecuritySettings settings metrics) w'
    end
  end.

Definition fetchSecuritySettings {W : Type} (c : Collector W)
  (metrics : metricsAggregator) (w : W) : metricsAggregator * W :=
  fetchSecuritySettingsLoop c (repos metrics) metrics w.

(** [NewOrgPosture]; [now] is the formatted reading of the clock. *)
Definition NewOrgPosture (org now : string) : OrgPosture := {|
  PostureSchemaVersion := SchemaVersion;
  CollectedAt := now;
  Organization := org;
  PostureScope :=
    {| IncludePatterns := []; ExcludePatterns := []; RepositoriesCoverage := 0 |};
  PosturePosture :=
    {| BranchProtectionCoverage := 0; SecurityFeaturesCoverage := 0 |};
  PostureAccessControl := {| AccessTwoFactorRequired := None |};
  PostureBranchProtectionRules :=
    {| PullRequestRequired := 0; ApprovingReviews := 0; DismissStaleReviews := 0;
       CodeOwnerReviews := 0; StatusChecks := 0; SignedCommits := 0;
       AdminEnforcement := 0 |};
  PostureSecurityFeatures :=
    {| VulnerabilityAlerts := 0; CodeScanning := 0; FeatureSecretScanning := 0;
       FeatureSecretScanningPushProtection := 0;
       FeatureDependabotSecurityUpdates := 0 |}
|}.

(** A nil and an empty slice are both the empty list, so the replacement
    of a nil [ExcludePatterns] by an empty one leaves the list as it is. *)
Definition populatePosture {W : Type} (c : Collector W) (posture : OrgPosture)
  (orgSecurity : OrgSecurity) (metrics : metricsAggregator)
  (includePatterns : list string) : OrgPosture :=
  let excludePatterns := ConfigExcludePatterns (config c) in
  let totalOrgRepos := add (totalRepos metrics) (excludedRepos metrics) in
  {|
    PostureSchemaVersion := PostureSchemaVersion posture;
    CollectedAt := CollectedAt posture;
    Organization := Organization posture;
    PostureScope := {|
      IncludePatterns := includePatterns;
      ExcludePatterns := excludePatterns;
      RepositoriesCoverage := percent (totalRepos metrics) totalOrgRepos
    |};
    PosturePosture := {|
      BranchProtectionCoverage :=
        percent (branchProtectionEnabled metrics) (totalRepos metrics);
      SecurityFeaturesCoverage := securityFeaturesCoverage metrics
    |};
    PostureAccessControl := {|
      AccessTwoFactorRequired := TwoFactorRequired orgSecurity
    |};
    PostureBranchProtectionRules := toBranchProtectionRules metrics;
    PostureSecurityFeatures := toSecurityFeatures metrics
  |}.

Definition Collect {W : Type} (c : Collector W) (now : string) (w : W)
  : outcome * W :=
  if (ConfigOrganization (config c) =? "")%string
  then (Failed "organization is required", w)
  else
    let includePatterns :=
      match ConfigIncludePatterns (config c) with
      | [] => [DefaultIncludePattern]
      | ps => ps
      end in
    let posture := NewOrgPosture (ConfigOrganization (config c)) now in
    let '(r, w1) := FetchOrgSecurity (client c) (ConfigOrganization (config c)) w in
    match r with
    | Err err => (Failed (Errorf "failed to fetch org security" err), w1)
    | Ok orgSecurity =>
      let '((pages, err), w2) :=
        FetchRepositories (client c) (ConfigOrganization (config c)) w1 in
      let metrics :=
        processPages includePatterns (ConfigExcludePatterns (config c))
                     newMetrics pages in
      match err with
      | Some err => (Failed (Errorf "failed to fetch repositories" err), w2)
      | None =>
        let '(metrics', w3) := fetchSecuritySettings c metrics w2 in
        (Report (populatePosture c posture orgSecurity metrics' includePatterns),
         w3)
      end
    end.

(** ** github/client.go: the requests of the client

    The client reaches GitHub through a GraphQL client and an HTTP
    client; both are functions on the state of the world [W].  Building a
    request and decoding a JSON body are the standard library's:
    [NewRequestWithContext] may refuse the URL, and a decoder may refuse
    the body; what a decoder returns is the anonymous struct the code
    decodes into. *)

Record RepositoriesQuery : Type := {
  Nodes : list Repository;
  HasNextPage : bool;
  EndCursor : string
}.

Record Request : Type := {
  Method : string;
  URL : string;
  Header : list (string * string)
}.

Record Response : Type := {
  StatusCode : Z;
  Body : string
}.

(** [security_and_analysis]: each feature is a pointer to a struct with a
    [status] string. *)
Record SecurityAndAnalysis : Type := {
  SecretScanningStatus : option string;
  SecretScanningPushProtectionStatus : option string;
  DependabotSecurityUpdatesStatus : option string
}.

Definition DefaultBaseURL : string := "https://api.github.com".
Definition AcceptHeader : string := "application/vnd.github+json".
Definition APIVersion : string := "2022-11-28".
Definition StatusEnabled : string := "enabled".
Definition StateConfigured : string := "configured".
Definition StatusOK : Z := 200.

Record Client (W : Type) : Type := {
  (** [c.graphql.Query] with the variables [org] and [cursor] *)
  graphql : string -> option string -> W -> result RepositoriesQuery * W;
  (** [c.httpClient.Do] *)
  httpClient : Request -> W -> result Response * W;
  baseURL : string;
  (** [http.NewRequestWithContext(ctx, method, url, nil)] *)
  NewRequestWithContext : string -> string -> result Request;
  (** [json.NewDecoder(body).Decode] into the struct of each call site *)
  decodeOrg : string -> result (option bool);
  decodeRepository : string -> result (option SecurityAndAnalysis);
  decodeDefaultSetup : string -> result string
}.

Arguments graphql {W} _ _ _ _.
Arguments httpClient {W} _ _ _.
Arguments baseURL {W} _.
Arguments NewRequestWithContext {W} _ _ _.
Arguments decodeOrg {W} _ _.
Arguments decodeRepository {W} _ _.
Arguments decodeDefaultSetup {W} _ _.

(** [req.Header.Set(key, value)] *)
Definition headerSet (key value : string) (h : list (string * string))
  : list (string * string) :=
  (key, value) :: filter (fun kv => negb (fst kv =? key)%string) h.

Definition setAPIHeaders (req : Request) : Request := {|
  Method := Method req;
  URL := URL req;
  Header :=
    headerSet "X-GitHub-Api-Version" APIVersion
              (headerSet "Accept" AcceptHeader (Header req))
|}.

(** [%d] *)
Definition itoa (z : Z) : string := NilZero.string_of_int (Z.to_int z).

(** The loop of [Client.FetchRepositories].  The callback works on the
    caller's state [St]; the loop ends when a query fails, when the
    callback fails, or at a page without successor.  Nothing bounds the
    number of pages a server may announce, so the loop is given [fuel]:
    [None] is a run that is not over after [fuel] queries. *)
Fixpoint ClientFetchRepositoriesLoop {W St : Type} (c : Client W) (fuel : nat)
  (org : string) (callback : list Repository -> St -> option error * St)
  (cursor : option string) (st : St) (w : W)
  : option ((option error * St) * W) :=
  match fuel with
  | O => None
  | S fuel' =>
    let '(r, w') := graphql c org cursor w in
    match r with
    | Err err => Some ((Some err, st), w')
    | Ok query =>
      let '(cerr, st') := callback (Nodes query) st in
      match cerr with
      | Some err => Some ((Some err, st'), w')
      | None =>
        if negb (HasNextPage query) then Some ((None, st'), w')
        else ClientFetchRepositoriesLoop c fuel' org callback
                                         (Some (EndCursor query)) st' w'
      end
    end
  end.

Definition ClientFetchRepositories {W St : Type} (c : Client W) (fuel : nat)
  (org : string) (callback : list Repository -> St -> option error * St)
  (st : St) (w : W) : option ((option error * St) * W) :=
  ClientFetchRepositoriesLoop c fuel org callback None st w.

Definition fetchOrgTwoFactorREST {W : Type} (c : Client W) (org : string) (w : W)
  : result (option bool) * W :=
  let url := baseURL c ++ "/orgs/" ++ org in
  match NewRequestWithContext c "GET" url with
  | Err err => (Err err, w)
  | Ok req =>
    let '(r, w') := httpClient c (setAPIHeaders req) w in
    match r with
    | Err err => (Err err, w')
    | Ok resp =>
      if negb (StatusCode resp =? StatusOK)
      then (Err ("org API returned status " ++ itoa (StatusCode resp)), w')
      else
        match decodeOrg c (Body resp) with
        | Err err => (Err err, w')
        | Ok twoFactorRequirementEnabled => (Ok twoFactorRequirementEnabled, w')
        end
    end
  end.

Definition checkCodeScanning {W : Type} (c : Client W) (owner repo : string)
  (w : W) : bool * W :=
  let url := baseURL c ++ "/repos/" ++ owner ++ "/" ++ repo
             ++ "/code-scanning/default-setup" in
  match NewRequestWithContext c "GET" url with
  | Err _ => (false, w)
  | Ok req =>
    let '(r, w') := httpClient c (setAPIHeaders req) w in
    match r with
    | Err _ => (false, w')
    | Ok resp =>
      if negb (StatusCode resp =? StatusOK) then (false, w')
      else
        match decodeDefaultSetup c (Body resp) with
        | Err _ => (false, w')
        | Ok state => ((state =? StateConfigured)%string, w')
        end
    end
  end.

(** [field != nil && field.Status == StatusEnabled], the zero value
    [false] otherwise. *)
Definition statusEnabled (field : option string) : bool :=
  match field with
  | Some status => (status =? StatusEnabled)%string
  | None => false
  end.

Definition emptySettings : SecuritySettings := {|
  SecretScanning := false;
  SecretScanningPushProtection := false;
  DependabotSecurityUpdates := false;
  CodeScanningEnabled := false
|}.

Definition ClientFetchSecuritySettings {W : Type} (c : Client W)
  (owner repo : string) (w : W) : result SecuritySettings * W :=
  let url := baseURL c ++ "/repos/" ++ owner ++ "/" ++ repo in
  match NewRequestWithContext c "GET" url with
  | Err err => (Err err, w)
  | Ok req =>
    let '(r, w') := httpClient c (setAPIHeaders req) w in
    match r with
    | Err err => (Err err, w')
    | Ok resp =>
      if negb (StatusCode resp =? StatusOK) then (Ok emptySettings, w')
      else
        match decodeRepository c (Body resp) with
        | Err _ => (Ok emptySettings, w')
        | Ok securityAndAnalysis =>
          let '(codeScanning, w'') := checkCodeScanning c owner repo w' in
          (Ok {|
             SecretScanning :=
               match securityAndAnalysis with
               | Some sa => statusEnabled (SecretScanningStatus sa)
               | None => false
               end;
             SecretScanningPushProtection :=
               match securityAndAnalysis with
               | Some sa => statusEnabled (SecretScanningPushProtectionStatus sa)
               | None => false
               end;
             DependabotSecurityUpdates :=
               match securityAndAnalysis with
               | Some sa => statusEnabled (DependabotSecurityUpdatesStatus sa)
               | None => false
               end;
             CodeScanningEnabled := codeScanning
           |}, w'')
        end
    end
  end.

(** ** collector.go: [New]

    The authentication fields of [Config], and the two constructors of
    the client package: [NewClientFromApp] may fail (it parses the
    private key), [NewClient] does not. *)

Record Credentials : Type := {
  GitHubToken : string;
  AppID : Z;
  InstallationID : Z;
  PrivateKey : string
}.

Record Constructors (W : Type) : Type := {
  NewClientFromApp : Z -> Z -> string -> result (GitHubClient W);
  NewClient : string -> GitHubClient W
}.

Arguments NewClientFromApp {W} _ _ _ _.
Arguments NewClient {W} _ _.

Definition New {W : Type} (github : Constructors W) (cred : Credentials)
  (cfg : Config) : result (Collector W) :=
  if negb (AppID cred =? 0) && negb (PrivateKey cred =? "")%string then
    if InstallationID cred =? 0
    then Err "installation_id is required when using GitHub App authentication"
    else
      match NewClientFromApp github (AppID cred) (InstallationID cred)
                             (PrivateKey cred) with
      | Err err => Err (Errorf "failed to create GitHub App client" err)
      | Ok c => Ok {| client := c; config := cfg |}
      end
  else if negb (GitHubToken cred =? "")%string then
    Ok {| client := NewClient github (GitHubToken cred); config := cfg |}
  else
    Err "authentication required: provide app_id + private_key (recommended) or github_token".

(** ** cmd/epack-collector-github/main.go

    A configuration value is a Go [any].  The dynamic types the getters
    tell apart are listed; [AnyOther] stands for every other one.  The
    type [F] is [float64], and [truncate] the conversion [int64(v)] of
    a [float64].  A configuration map is read only: it is the function
    from keys to values, [None] for the nil map. *)

Module Main.

#[warnings="-register-all"]
Inductive any (F : Type) : Type :=
| AnyString (s : string)
| AnyInt64 (z : Z)
| AnyInt (z : Z)
| AnyFloat64 (f : F)
| AnySlice (items : list (any F))
| AnyOther.

Arguments AnyString {F} s.
Arguments AnyInt64 {F} z.
Arguments AnyInt {F} z.
Arguments AnyFloat64 {F} f.
Arguments AnySlice {F} items.
Arguments AnyOther {F}.

Definition configMap (F : Type) : Type := option (string -> option (any F)).

Definition getString {F : Type} (cfg : configMap F) (key : string) : string :=
  match cfg with
  | None => ""
  | Some m =>
    match m key with
    | Some (AnyString v) => v
    | _ => ""
    end
  end.

Definition getInt64 {F : Type} (truncate : F -> Z) (cfg : configMap F)
  (key : string) : Z :=
  match cfg with
  | None => 0
  | Some m =>
    match m key with
    | Some (AnyInt64 v) => v
    | Some (AnyInt v) => v
    | Some (AnyFloat64 v) => truncate v
    | _ => 0
    end
  end.

(** The loop over the items: a string is appended, anything else is
    passed over. *)
Fixpoint appendStrings {F : Type} (result : list string) (items : list (any F))
  : list string :=
  match items with
  | [] => result
  | AnyString s :: rest => appendStrings (result ++ [s]) rest
  | _ :: rest => appendStrings result rest
  end.

Definition getStringSlice {F : Type} (cfg : configMap F) (key : string)
  : list string :=
  match cfg with
  | None => []
  | Some m =>
    match m key with
    | Some (AnySlice v) => appendStrings [] v
    | _ => []
    end
  end.

(** The errors of the component SDK that [run] returns. *)
Inductive sdkError : Type :=
| ConfigError (message : string)
| NetworkError (message : string)
| EmitError (err : error).

(** [componentsdk.CollectorContext], as far as [run] uses it. *)
Record CollectorContext (F W : Type) : Type := {
  CtxConfig : configMap F;
  Secret : string -> string;
  Emit : OrgPosture -> W -> option error * W
}.

Arguments CtxConfig {F W} _.
Arguments Secret {F W} _ _.
Arguments Emit {F W} _ _ _.

Definition run {F W : Type} (truncate : F -> Z) (github : Constructors W)
  (ctx : CollectorContext F W) (now : string) (w : W) : option sdkError * W :=
  let cfg := CtxConfig ctx in
  let cred := {|
    GitHubToken := Secret ctx "GITHUB_TOKEN";
    AppID := getInt64 truncate cfg "app_id";
    InstallationID := getInt64 truncate cfg "installation_id";
    PrivateKey := Secret ctx "GITHUB_APP_PRIVATE_KEY"
  |} in
  let config0 := {|
    ConfigOrganization := getString cfg "organization";
    ConfigIncludePatterns := getStringSlice cfg "include_patterns";
    ConfigExcludePatterns := getStringSlice cfg "exclude_patterns"
  |} in
  if (ConfigOrganization config0 =? "")%string
  then (Some (ConfigError "organization is required"), w)
  else
    let hasAppAuth :=
      negb (AppID cred =? 0) && negb (PrivateKey cred =? "")%string in
    let hasTokenAuth := negb (GitHubToken cred =? "")%string in
    if negb hasAppAuth && negb hasTokenAuth
    then (Some (ConfigError
                  "authentication required: provide GITHUB_TOKEN or app_id + GITHUB_APP_PRIVATE_KEY"),
          w)
    else
      match New github cred config0 with
      | Err err => (Some (ConfigError ("creating collector: " ++ err)), w)
      | Ok c =>
        let '(out, w') := Collect c now w in
        match out with
        | Failed err => (Some (NetworkError ("collecting posture: " ++ err)), w')
        | Report posture =>
          let '(err, w'') := Emit ctx posture w' in
          (option_map EmitError err, w'')
        end
      end.

End Main.

(* ================================================================== *)
(** * Part II: what the specification compares the code with          *)
(* ================================================================== *)

(** ** Glob matching, as the specification words it

    The whole name is matched against the whole pattern: [*] stands for
    any run of characters, [?] for exactly one character, any other
    character for itself. *)

Fixpoint glob_run (cont : string -> bool) (name : string) : bool :=
  cont name ||
  match name with
  | EmptyString => false
  | String _ name' => glob_run cont name'
  end.

Fixpoint glob_match (pattern name : string) : bool :=
  match pattern with
  | EmptyString =>
    match name with
    | EmptyString => true
    | String _ _ => false
    end
  | String p pattern' =>
    if (p =? "*")%char then glob_run (glob_match pattern') name
    else
      match name with
      | EmptyString => false
      | String c name' =>
        ((p =? "?")%char || (p =? c)%char) && glob_match pattern' name'
      end
  end.

(** The instructions a glob is expected to compile to. *)
Fixpoint compileGlob (pattern : string) : Regexp.Regexp :=
  match pattern with
  | EmptyString => []
  | String p pattern' =>
    (if (p =? "*")%char then Regexp.Star Regexp.AnyCharNotNL
     else if (p =? "?")%char then Regexp.One Regexp.AnyCharNotNL
     else Regexp.One (Regexp.Literal p)) :: compileGlob pattern'
  end.

Definition starts_with_star (s : string) : bool :=
  match s with
  | EmptyString => false
  | String c _ => (c =? "*")%char
  end.

(** The wording of the matcher contract: the wildcard pattern accepts
    everything, any other pattern is a glob. *)
Definition spec_matches (name pattern : string) : bool :=
  if (pattern =? "*")%string then true else glob_match pattern name.

Fixpoint has_newline (s : string) : bool :=
  match s with
  | EmptyString => false
  | String c s' => (c =? Regexp.newline)%char || has_newline s'
  end.

(** Text made of ASCII characters only: there a byte, a rune and a
    character of the model are the same thing. *)
Fixpoint is_ascii (s : string) : bool :=
  match s with
  | EmptyString => true
  | String c s' => (N_of_ascii c <? 128)%N && is_ascii s'
  end.

(** A pattern length far below the size at which the [regexp] package
    refuses an expression: a pattern character gives at most two nodes
    of the parsed expression, and the package accepts more than three
    million. *)
Definition maxPatternLength : Z := 1000000.

Definition ordinary_size (pattern : string) : Prop :=
  Z.of_nat (String.length pattern) <= maxPatternLength.

(** ** Histories of an aggregator

    The aggregator is private to the collector: a state of it is what a
    sequence of calls of its two mutating methods leaves behind, starting
    from the zero value. *)

Inductive call : Type :=
| CallProcessRepository (repo : Repository)
                        (includePatterns excludePatterns : list string)
| CallCountSecuritySettings (settings : SecuritySettings).

Definition apply_call (m : metricsAggregator) (c : call) : metricsAggregator :=
  match c with
  | CallProcessRepository repo inc exc => processRepository repo inc exc m
  | CallCountSecuritySettings settings => countSecuritySettings settings m
  end.

Definition run (calls : list call) : metricsAggregator :=
  fold_left apply_call calls newMetrics.

(** The orchestrated sequence: every observed repository is processed,
    then settings are counted. *)
Definition processAll (includePatterns excludePatterns : list string)
  (observed : list Repository) (m : metricsAggregator) : metricsAggregator :=
  fold_left (fun m repo => processRepository repo includePatterns excludePatterns m)
            observed m.

Definition countAll (counted : list SecuritySettings) (m : metricsAggregator)
  : metricsAggregator :=
  fold_left (fun m settings => countSecuritySettings settings m) counted m.

(** The thirteen counters of a state: seven for branch protection, five
    for the security features. *)
Definition branchProtectionCounters (m : metricsAggregator) : list Z :=
  [branchProtectionEnabled m; requirePullRequest m; requireApprovingReviews m;
   dismissStaleReviews m; requireCodeOwnerReviews m; requireStatusChecks m;
   requireSignedCommits m; enforceAdmins m].

Definition securityFeatureCounters (m : metricsAggregator) : list Z :=
  [vulnerabilityAlertsEnabled m; codeScanningEnabled m; secretScanningEnabled m;
   secretScanningPushProtection m; dependabotSecurityUpdatesEnabled m].

(** ** Invariants of the aggregator *)

(** Every integer field lies between [0] and [n]. *)
Definition fields_within (n : Z) (m : metricsAggregator) : Prop :=
  0 <= totalRepos m <= n /\ 0 <= excludedRepos m <= n /\
  Forall (fun c => 0 <= c <= n)
         (branchProtectionCounters m ++ securityFeatureCounters m).

(** After [n] repositories were observed and before any settings were
    counted. *)
Definition enumeration_inv (n : Z) (m : metricsAggregator) : Prop :=
  totalRepos m + excludedRepos m = n /\
  0 <= excludedRepos m /\
  Z.of_nat (List.length (repos m)) = totalRepos m /\
  Forall (fun c => 0 <= c <= totalRepos m)
         (vulnerabilityAlertsEnabled m :: branchProtectionCounters m) /\
  codeScanningEnabled m = 0 /\ secretScanningEnabled m = 0 /\
  secretScanningPushProtection m = 0 /\ dependabotSecurityUpdatesEnabled m = 0.

(** After the settings of [k] repositories were counted on top of the
    state [m1] that the enumeration left. *)
Definition settings_inv (m1 : metricsAggregator) (k : Z) (m : metricsAggregator)
  : Prop :=
  totalRepos m = totalRepos m1 /\
  excludedRepos m = excludedRepos m1 /\
  repos m = repos m1 /\
  vulnerabilityAlertsEnabled m = vulnerabilityAlertsEnabled m1 /\
  branchProtectionCounters m = branchProtectionCounters m1 /\
  Forall (fun c => 0 <= c <= k)
         [codeScanningEnabled m; secretScanningEnabled m;
          secretScanningPushProtection m; dependabotSecurityUpdatesEnabled m].

(** ** Degraded settings fetches

    The settings value with every feature disabled, and the client that
    answers with it wherever the given client fails to fetch the
    settings of a repository. *)

Definition allDisabled : SecuritySettings := {|
  SecretScanning := false;
  SecretScanningPushProtection := false;
  DependabotSecurityUpdates := false;
  CodeScanningEnabled := false
|}.

Definition degrade {W : Type} (c : GitHubClient W) : GitHubClient W := {|
  FetchOrgSecurity := FetchOrgSecurity c;
  FetchRepositories := FetchRepositories c;
  FetchSecuritySettings := fun owner repo w =>
    match FetchSecuritySettings c owner repo w with
    | (Err _, w') => (Ok allDisabled, w')
    | answer => answer
    end
|}.

Definition degradeCollector {W : Type} (c : Collector W) : Collector W :=
  {| client := degrade (client c); config := config c |}.

(** The include patterns in force: the configured ones, or the wildcard
    when none is configured. *)
Definition effectiveIncludePatterns (cfg : Config) : list string :=
  match ConfigIncludePatterns cfg with
  | [] => [DefaultIncludePattern]
  | ps => ps
  end.

(** The state of the aggregator at the end of the enumeration phase and
    at the end of the settings phase of a run of [Collect] in which the
    client delivered [pages] and left the world in [w2]. *)
Definition enumerated {W : Type} (c : Collector W)
  (pages : list (list Repository)) : metricsAggregator :=
  processPages (effectiveIncludePatterns (config c))
               (ConfigExcludePatterns (config c)) newMetrics pages.

Definition settled {W : Type} (c : Collector W)
  (pages : list (list Repository)) (w2 : W) : metricsAggregator :=
  fst (fetchSecuritySettings c (enumerated c pages) w2).

(** ** The two candidate formulas for the security-features coverage *)

Definition exact_sum (l : list Z) : Z := fold_right Z.add 0 l.

(** One truncation, at the end. *)
Definition singleTruncation (m : metricsAggregator) : Z :=
  exact_sum (securityFeatureCounters m) * 100 / (totalRepos m * 5).

(** The average of the five percentages, each already truncated. *)
Definition averageOfTruncated (m : metricsAggregator) : Z :=
  exact_sum (map (fun c => percent c (totalRepos m)) (securityFeatureCounters m)) / 5.

(** ** Counting the observed repositories *)

Definition repoIdentity (repo : Repository) : repoInfo :=
  {| owner := OwnerLogin repo; name := Name repo |}.

(** The repositories of [observed] that the scope filter accepts. *)
Definition accepted (includePatterns excludePatterns : list string)
  (observed : list Repository) : list Repository :=
  filter (fun repo => ShouldIncludeRepo (Name repo) includePatterns excludePatterns)
         observed.

Definition rejected (includePatterns excludePatterns : list string)
  (observed : list Repository) : list Repository :=
  filter (fun repo =>
            negb (ShouldIncludeRepo (Name repo) includePatterns excludePatterns))
         observed.

(** How many elements of [l] satisfy [p], as an integer. *)
Definition countWhere {A : Type} (p : A -> bool) (l : list A) : Z :=
  Z.of_nat (List.length (filter p l)).

(** Whether a repository has a branch-protection rule with the flag
    [flag] set. *)
Definition ruleHas (flag : BranchProtectionRule -> bool) (repo : Repository)
  : bool :=
  match BranchProtection repo with
  | Some bp => flag bp
  | None => false
  end.

(** ** The report, from what the client delivered *)

(** [count] out of [total] as a whole percentage, rounded down, and [0]
    when there is nothing to count: plain arithmetic on unbounded
    integers. *)
Definition ratio (count total : Z) : Z :=
  if total =? 0 then 0 else count * 100 / total.

(** The settings the client answers with when asked, one repository
    after the other from the world [w] on, for the repositories [rs]; a
    request that fails contributes no answer. *)
Fixpoint settingsAnswers {W : Type} (c : GitHubClient W) (rs : list repoInfo)
  (w : W) : list SecuritySettings :=
  match rs with
  | [] => []
  | repo :: rest =>
    match FetchSecuritySettings c (owner repo) (name repo) w with
    | (Ok settings, w') => settings :: settingsAnswers c rest w'
    | (Err _, w') => settingsAnswers c rest w'
    end
  end.

(** A pattern without wildcard characters. *)
Fixpoint is_literal (pattern : string) : bool :=
  match pattern with
  | EmptyString => true
  | String c rest =>
    negb (c =? "*")%char && negb (c =? "?")%char && is_literal rest
  end.

(** The percentages of a report, all of them. *)
Definition reportPercentages (posture : OrgPosture) : list Z :=
  [RepositoriesCoverage (PostureScope posture);
   BranchProtectionCoverage (PosturePosture posture);
   SecurityFeaturesCoverage (PosturePosture posture);
   PullRequestRequired (PostureBranchProtectionRules posture);
   ApprovingReviews (PostureBranchProtectionRules posture);
   DismissStaleReviews (PostureBranchProtectionRules posture);
   CodeOwnerReviews (PostureBranchProtectionRules posture);
   StatusChecks (PostureBranchProtectionRules posture);
   SignedCommits (PostureBranchProtectionRules posture);
   AdminEnforcement (PostureBranchProtectionRules posture);
   VulnerabilityAlerts (PostureSecurityFeatures posture);
   CodeScanning (PostureSecurityFeatures posture);
   FeatureSecretScanning (PostureSecurityFeatures posture);
   FeatureSecretScanningPushProtection (PostureSecurityFeatures posture);
   FeatureDependabotSecurityUpdates (PostureSecurityFeatures posture)].

(** ** What a server delivers

    [delivers c org cursor w pages err w']: asked page after page from
    [cursor] on, each query carrying the end cursor of the page before,
    the server behind [c] hands out [pages] and then either announces
    no further page ([err] is nil) or fails a query with [err]; [w'] is
    the world after the last query. *)

Inductive delivers {W : Type} (c : Client W) (org : string)
  : option string -> W -> list (list Repository) -> option error -> W -> Prop :=
| delivers_error cursor w err w' :
    graphql c org cursor w = (Err err, w') ->
    delivers c org cursor w [] (Some err) w'
| delivers_last cursor w query w' :
    graphql c org cursor w = (Ok query, w') ->
    HasNextPage query = false ->
    delivers c org cursor w [Nodes query] None w'
| delivers_next cursor w query w' pages err w'' :
    graphql c org cursor w = (Ok query, w') ->
    HasNextPage query = true ->
    delivers c org (Some (EndCursor query)) w' pages err w'' ->
    delivers c org cursor w (Nodes query :: pages) err w''.

(** A callback that folds every page into its state and never fails, as
    the one [Collect] passes does. *)
Definition foldCallback {St : Type} (f : St -> list Repository -> St)
  : list Repository -> St -> option error * St :=
  fun page st => (None, f st page).

(** ** The strings of a configuration list *)

Definition stringsOf {F : Type} (items : list (Main.any F)) : list string :=
  flat_map (fun item =>
              match item with
              | Main.AnyString s => [s]
              | _ => []
              end) items.

(* ================================================================== *)
(** * Part III: concrete inputs                                        *)
(* ================================================================== *)

Module Samples.

Definition noSettings : SecuritySettings := {|
  SecretScanning := false;
  SecretScanningPushProtection := false;
  DependabotSecurityUpdates := false;
  CodeScanningEnabled := false
|}.

Definition allSettings : SecuritySettings := {|
  SecretScanning := true;
  SecretScanningPushProtection := true;
  DependabotSecurityUpdates := true;
  CodeScanningEnabled := true
|}.

Definition twoSettings : SecuritySettings := {|
  SecretScanning := true;
  SecretScanningPushProtection := false;
  DependabotSecurityUpdates := false;
  CodeScanningEnabled := true
|}.

Definition fullRule : BranchProtectionRule := {|
  RequiresApprovingReviews := true;
  RequiredApprovingReviewCount := 1;
  DismissesStaleReviews := true;
  RequiresCodeOwnerReviews := true;
  RequiresStatusChecks := true;
  RequiresCommitSignatures := true;
  IsAdminEnforced := true
|}.

Definition reviewRule : BranchProtectionRule := {|
  RequiresApprovingReviews := true;
  RequiredApprovingReviewCount := 1;
  DismissesStaleReviews := false;
  RequiresCodeOwnerReviews := false;
  RequiresStatusChecks := true;
  RequiresCommitSignatures := false;
  IsAdminEnforced := false
|}.

Definition repo (n : string) (bp : option BranchProtectionRule) (alerts : bool)
  : Repository := {|
  Name := n;
  OwnerLogin := "test-org";
  Visibility := "PRIVATE";
  DefaultBranchName := "main";
  BranchProtection := bp;
  HasVulnerabilityAlertsEnabled := alerts
|}.

Definition prodA : Repository := repo "prod-a" (Some fullRule) true.
Definition prodB : Repository := repo "prod-b" (Some reviewRule) false.
Definition testC : Repository := repo "test-c" None false.

(** A client in the manner of the test suite's mock: fixed answers, and
    a settings fetch that fails for the repositories named in [broken]. *)
Definition mockGitHubClient (orgSecurity : result OrgSecurity)
  (pages : list (list Repository)) (repositoriesErr : option error)
  (settings : SecuritySettings) (broken : list string) : GitHubClient unit := {|
  FetchOrgSecurity := fun _ w => (orgSecurity, w);
  FetchRepositories := fun _ w => ((pages, repositoriesErr), w);
  FetchSecuritySettings := fun _ repo w =>
    (if existsb (String.eqb repo) broken
     then Err "settings unavailable" else Ok settings, w)
|}.

(** The same, with the organisation answer produced by the real
    client's [FetchOrgSecurity] from the outcome [rest] of its REST read. *)
Definition restGitHubClient (rest : result (option bool))
  (pages : list (list Repository)) (settings : SecuritySettings)
  : GitHubClient unit := {|
  FetchOrgSecurity := ClientFetchOrgSecurity (fun _ w => (rest, w));
  FetchRepositories := fun _ w => ((pages, None), w);
  FetchSecuritySettings := fun _ _ w => (Ok settings, w)
|}.

(** The same again, with a settings fetch that fails for the
    repositories named in [broken]. *)
Definition partialGitHubClient (rest : result (option bool))
  (pages : list (list Repository)) (settings : SecuritySettings)
  (broken : list string) : GitHubClient unit := {|
  FetchOrgSecurity := ClientFetchOrgSecurity (fun _ w => (rest, w));
  FetchRepositories := fun _ w => ((pages, None), w);
  FetchSecuritySettings := fun _ repo w =>
    (if existsb (String.eqb repo) broken
     then Err "settings unavailable" else Ok settings, w)
|}.

Definition testConfig (org : string) (inc exc : list string) : Config := {|
  ConfigOrganization := org;
  ConfigIncludePatterns := inc;
  ConfigExcludePatterns := exc
|}.

Definition collector (org : string) (inc exc : list string)
  (c : GitHubClient unit) : Collector unit :=
  {| client := c; config := testConfig org inc exc |}.

Definition knownOrg (b : bool) : result OrgSecurity :=
  Ok {| TwoFactorRequired := Some b |}.

Definition unknownOrg : result OrgSecurity :=
  Ok {| TwoFactorRequired := None |}.

(** Three repositories, one of them with vulnerability alerts, and one
    settings answer with code scanning and secret scanning on. *)
Definition unevenCalls : list call :=
  [CallProcessRepository prodA ["*"] [];
   CallProcessRepository prodB ["*"] [];
   CallProcessRepository testC ["*"] [];
   CallCountSecuritySettings twoSettings].

(** A GraphQL server with two pages, then one that fails; the world is
    the number of queries answered so far. *)
Definition pagedClient : Client nat := {|
  graphql := fun _ cursor n =>
    (match cursor with
     | None =>
       Ok {| Nodes := [prodA; prodB]; HasNextPage := true; EndCursor := "c1" |}
     | Some cur =>
       if (cur =? "c1")%string
       then Ok {| Nodes := [testC]; HasNextPage := false; EndCursor := "" |}
       else Err "unknown cursor"
     end, S n);
  httpClient := fun req n =>
    (if (URL req =? "https://api.github.com/orgs/test-org")%string
     then Ok {| StatusCode := 403; Body := "forbidden" |}
     else if (URL req =? "https://api.github.com/repos/test-org/prod-a")%string
     then Ok {| StatusCode := 200; Body := "analysis" |}
     else if (URL req =?
              "https://api.github.com/repos/test-org/prod-a/code-scanning/default-setup")%string
     then Ok {| StatusCode := 200; Body := "configured" |}
     else Ok {| StatusCode := 404; Body := "" |}, S n);
  baseURL := DefaultBaseURL;
  NewRequestWithContext := fun method url =>
    Ok {| Method := method; URL := url; Header := [] |};
  decodeOrg := fun body => Err "invalid character";
  decodeRepository := fun body =>
    if (body =? "analysis")%string
    then Ok (Some {| SecretScanningStatus := Some "enabled";
                     SecretScanningPushProtectionStatus := Some "disabled";
                     DependabotSecurityUpdatesStatus := None |})
    else Err "invalid character";
  decodeDefaultSetup := fun body => Ok body
|}.

(** A collector client on top of [pagedClient] whose enumeration fails. *)
Definition restBackedClient : GitHubClient nat := {|
  FetchOrgSecurity := ClientFetchOrgSecurity (fetchOrgTwoFactorREST pagedClient);
  FetchRepositories := fun _ n => (([], Some "network timeout"), S n);
  FetchSecuritySettings := ClientFetchSecuritySettings pagedClient
|}.

(** Constructors in the manner of the client package: the app client is
    refused when the key does not look like a PEM block. *)
Definition constructors : Constructors unit := {|
  NewClientFromApp := fun appID installationID privateKey =>
    if prefix "-----BEGIN" privateKey
    then Ok (mockGitHubClient (knownOrg true) [[prodA]] None allSettings [])
    else Err "could not parse private key";
  NewClient := fun token =>
    mockGitHubClient unknownOrg [[prodA; testC]] None noSettings []
|}.

(** A context with a configuration map and secrets; floats are modelled
    by integers here. *)
Definition context (organization : option (Main.any Z))
  (appID : option (Main.any Z)) (token key : string)
  : Main.CollectorContext Z unit := {|
  Main.CtxConfig := Some (fun k =>
    if (k =? "organization")%string then organization
    else if (k =? "app_id")%string then appID
    else if (k =? "installation_id")%string then Some (Main.AnyFloat64 78901234)
    else if (k =? "include_patterns")%string
    then Some (Main.AnySlice [Main.AnyString "prod-*"; Main.AnyInt 7])
    else None);
  Main.Secret := fun n =>
    if (n =? "GITHUB_TOKEN")%string then token
    else if (n =? "GITHUB_APP_PRIVATE_KEY")%string then key
    else "";
  Main.Emit := fun _ w => (None, w)
|}.

Definition now : string := "2026-02-23T14:30:00Z".

End Samples.

(* ================================================================== *)
(** * Part IV: properties                                              *)
(* ================================================================== *)

(** ** Arithmetic on Go's [int] *)

Section GoIntFacts.

Lemma in_rangeb_spec z : in_rangeb z = true <-> in_range z.
Proof.
  unfold in_rangeb, in_range.
  rewrite andb_true_iff, !Z.leb_le. tauto.
Qed.

Lemma wrap_in_range z : in_range (wrap z).
Proof.
  unfold in_range, wrap, min_int, max_int.
  assert (H := Z.mod_pos_bound (z + 2 ^ 63) (2 ^ 64) ltac:(lia)).
  lia.
Qed.

Lemma wrap_small z : in_range z -> wrap z = z.
Proof.
  unfold in_range, wrap, min_int, max_int. intros H.
  rewrite Z.mod_small; lia.
Qed.

Lemma incr_small z : min_int <= z < max_int -> incr z = z + 1.
Proof.
  intros H. unfold incr, add. apply wrap_small.
  unfold in_range. lia.
Qed.

Lemma add_small a b : in_range (a + b) -> add a b = a + b.
Proof. apply wrap_small. Qed.

Lemma mul_small a b : in_range (a * b) -> mul a b = a * b.
Proof. apply wrap_small. Qed.

Lemma quot_pos_bounds a b :
  0 < b ->
  (0 <= a -> 0 <= Z.quot a b <= a) /\ (a <= 0 -> a <= Z.quot a b <= 0).
Proof.
  intros Hb. split; intros Ha.
  - rewrite Z.quot_div_nonneg by lia.
    split; [apply Z.div_pos; lia|].
    apply Z.div_le_upper_bound; nia.
  - assert (E : Z.quot a b = - (- a / b)).
    { rewrite <- (Z.quot_div_nonneg (- a) b) by lia.
      rewrite Z.quot_opp_l by lia. lia. }
    rewrite E.
    assert (0 <= - a / b) by (apply Z.div_pos; lia).
    assert (- a / b <= - a) by (apply Z.div_le_upper_bound; nia).
    lia.
Qed.

Lemma quo_pos a b : in_range a -> 0 < b -> quo a b = Z.quot a b.
Proof.
  intros Ha Hb. unfold quo. apply wrap_small.
  destruct (quot_pos_bounds a b Hb) as [Hp Hn].
  unfold in_range, min_int, max_int in *.
  destruct (Z_le_gt_dec 0 a) as [H|H];
    [specialize (Hp H)|specialize (Hn ltac:(lia))]; lia.
Qed.

End GoIntFacts.

(** ** [percent] *)

Lemma percent_zero_total count : percent count 0 = 0.
Proof. reflexivity. Qed.

Lemma percent_quot count total :
  0 < total -> in_range (count * 100) ->
  percent count total = Z.quot (count * 100) total.
Proof.
  intros Ht Hc. unfold percent, MaxPercentage.
  destruct (Z.eqb_spec total 0) as [E|_]; [lia|].
  rewrite mul_small by exact Hc.
  apply quo_pos; assumption.
Qed.

Lemma percent_div count total :
  0 < total -> 0 <= count -> count * 100 <= max_int ->
  percent count total = count * 100 / total.
Proof.
  intros Ht Hc Hm.
  rewrite percent_quot; [|lia|unfold in_range, min_int, max_int in *; lia].
  apply Z.quot_div_nonneg; lia.
Qed.

(** C4, as stated, fails on the code: at [count = max_int], [total = 1]
    the product [count * 100] wraps around and [percent] returns [-100],
    not [floor(count * 100 / total)]; and for a negative count Go's
    division truncates toward zero, so [percent (-1) 3] is [-33] where
    the floor is [-34]. *)
Lemma percent_not_floor_on_all_ints :
  (in_range max_int /\ in_range 1 /\
   percent max_int 1 = -100 /\
   max_int * 100 / 1 = 922337203685477580700 /\
   percent max_int 1 <> max_int * 100 / 1) /\
  (in_range (-1) /\ in_range 3 /\
   percent (-1) 3 = -33 /\
   -1 * 100 / 3 = -34 /\
   percent (-1) 3 <> -1 * 100 / 3).
Proof.
  repeat split; try (vm_compute; congruence); vm_compute; discriminate.
Qed.

(** C4 (amended): [percent count 0] is [0] for every count; for
    [total > 0] and a product [count * 100] that fits in an [int],
    [percent count total] is the quotient of [count * 100] by [total]
    truncated toward zero, which for [count >= 0] is
    [floor(count * 100 / total)]; in particular [percent 0 t = 0] for
    [t > 0], [percent t t = 100] for [t > 0] with [t * 100] in range,
    [percent 1 3 = 33] and [percent 2 3 = 66]. *)
Theorem percent_truncating_division (count total : Z) :
  percent count 0 = 0 /\
  (0 < total -> in_range (count * 100) ->
   percent count total = Z.quot (count * 100) total /\
   (0 <= count -> percent count total = count * 100 / total)) /\
  (0 < total -> percent 0 total = 0) /\
  (0 < total -> total * 100 <= max_int -> percent total total = 100) /\
  percent 1 3 = 33 /\
  percent 2 3 = 66.
Proof.
  split; [reflexivity|].
  split.
  { intros Ht Hc. split; [apply percent_quot; assumption|].
    intros H0. apply percent_div; [assumption..|].
    unfold in_range in Hc. lia. }
  split.
  { intros Ht. rewrite percent_div; [|lia|lia|unfold max_int; lia].
    apply Z.div_0_l. lia. }
  split.
  { intros Ht Hm. rewrite percent_div by lia.
    rewrite Z.mul_comm. apply Z.div_mul. lia. }
  split; reflexivity.
Qed.

Lemma percent_truncating_division_witness :
  percent 7 0 = 0 /\
  percent 7 9 = Z.quot (7 * 100) 9 /\
  percent 7 9 = 7 * 100 / 9 /\
  percent 7 9 = 77 /\
  percent 0 9 = 0 /\
  percent 9 9 = 100.
Proof.
  assert (H9 : 0 < 9) by lia.
  assert (R7 : in_range (7 * 100)) by (unfold in_range, min_int, max_int; lia).
  assert (M9 : 9 * 100 <= max_int) by (unfold max_int; lia).
  destruct (percent_truncating_division 7 9) as (Z0 & Q & _).
  destruct (Q H9 R7) as [Qq Qd].
  destruct (percent_truncating_division 9 9) as (_ & _ & P0 & PT & _).
  split; [exact (proj1 (percent_truncating_division 7 0))|].
  split; [exact Qq|].
  split; [apply Qd; lia|].
  split; [rewrite Qq; reflexivity|].
  split; [apply P0; lia|apply PT; [lia|exact M9]].
Defined.

(** C9, as stated, fails on the code: nothing clamps the result, so a
    count above the total gives more than a hundred. *)
Lemma percent_above_hundred :
  in_range 2 /\ in_range 1 /\ percent 2 1 = 200 /\ ~ (0 <= percent 2 1 <= 100).
Proof.
  repeat split; try (vm_compute; congruence).
  vm_compute. intros [_ H]. apply H. reflexivity.
Qed.

(** C9 (amended): for [0 <= count <= total], with [count * 100] within
    the range of an [int], [percent count total] lies in [[0, 100]]. *)
Theorem percent_bounded (count total : Z) :
  0 <= count <= total -> count * 100 <= max_int ->
  0 <= percent count total <= 100.
Proof.
  intros [Hc Ht] Hm.
  destruct (Z.eq_dec total 0) as [->|Hnz].
  - rewrite percent_zero_total. lia.
  - rewrite percent_div by lia. split.
    + apply Z.div_pos; lia.
    + apply Z.div_le_upper_bound; lia.
Qed.

Lemma percent_bounded_witness :
  (0 <= 2 <= 3) /\ 2 * 100 <= max_int /\ 0 <= percent 2 3 <= 100.
Proof.
  assert (H1 : 0 <= 2 <= 3) by lia.
  assert (H2 : 2 * 100 <= max_int) by (unfold max_int; lia).
  split; [exact H1|]. split; [exact H2|].
  exact (percent_bounded 2 3 H1 H2).
Defined.

(** ** The pattern matcher *)

Section PatternFacts.

Lemma append_assoc (a b c : string) : (a ++ b) ++ c = a ++ (b ++ c).
Proof. induction a as [|x a IH]; simpl; [reflexivity|now rewrite IH]. Qed.

Lemma writeGlobChar_app b c : writeGlobChar b c = b ++ writeGlobChar "" c.
Proof.
  unfold writeGlobChar.
  repeat match goal with |- context [if ?t then _ else _] => destruct t end;
    reflexivity.
Qed.

Lemma writeGlob_app b p : writeGlob b p = b ++ writeGlob "" p.
Proof.
  revert b. induction p as [|c p IH]; intros b; simpl.
  - induction b as [|x b IHb]; simpl; [reflexivity|now rewrite <- IHb].
  - rewrite (IH (writeGlobChar b c)), (IH (writeGlobChar "" c)).
    rewrite (writeGlobChar_app b c). apply append_assoc.
Qed.

Lemma with_inst_app i l r :
  option_map (app (i :: l)) r = Regexp.with_inst i (option_map (app l) r).
Proof. destruct r; reflexivity. Qed.

Ltac split_char c :=
  repeat match goal with
         | |- context [Ascii.eqb c ?x] =>
           destruct (Ascii.eqb_spec c x) as [->|?]
         end.

(** The expression written for a glob parses to the expected
    instructions, whatever follows it, as long as what follows does not
    begin with a star. *)
Lemma parse_writeGlob p rest :
  starts_with_star rest = false ->
  Regexp.parse (writeGlob "" p ++ rest)
  = option_map (app (compileGlob p)) (Regexp.parse rest)
  /\ starts_with_star (writeGlob "" p ++ rest) = false.
Proof.
  intros Hrest. induction p as [|c p [IHp IHs]].
  - simpl. split; [destruct (Regexp.parse rest); reflexivity|exact Hrest].
  - simpl writeGlob. rewrite writeGlob_app, append_assoc.
    set (X := writeGlob "" p ++ rest) in *.
    assert (L : forall k,
      match X with
      | EmptyString => Regexp.with_inst (Regexp.One k) (Regexp.parse X)
      | String n rest' =>
        if (n =? "*")%char
        then Regexp.with_inst (Regexp.Star k) (Regexp.parse rest')
        else Regexp.with_inst (Regexp.One k) (Regexp.parse X)
      end = Regexp.with_inst (Regexp.One k) (Regexp.parse X)).
    { intros k. destruct X as [|n X']; [reflexivity|].
      simpl in IHs. rewrite IHs. reflexivity. }
    simpl compileGlob. rewrite with_inst_app, <- IHp.
    unfold writeGlobChar. simpl existsb.
    split_char c; simpl; try (rewrite ?L; split; reflexivity).
    unfold Regexp.is_meta. simpl existsb.
    repeat match goal with
           | H : c <> ?x |- context [Ascii.eqb c ?x] =>
             rewrite (proj2 (Ascii.eqb_neq c x) H)
           end.
    simpl. rewrite L. split; reflexivity.
Qed.

Lemma Compile_regexPattern p :
  Regexp.Compile (regexPattern p)
  = Ok (Regexp.BeginText :: (compileGlob p ++ [Regexp.EndText])%list).
Proof.
  unfold Regexp.Compile, regexPattern.
  rewrite writeGlob_app, append_assoc.
  change ("^" ++ (writeGlob "" p ++ "$"))
    with (String "^" (writeGlob "" p ++ "$")).
  cbn [Regexp.parse]. change ("^" =? "^")%char with true. cbv iota.
  destruct (parse_writeGlob p "$" eq_refl) as [-> _].
  reflexivity.
Qed.

Lemma search_BeginText re s :
  Regexp.search (Regexp.BeginText :: re) false s = false.
Proof. induction s as [|c s IH]; simpl; [reflexivity|exact IH]. Qed.

Lemma MatchString_anchored re s :
  Regexp.MatchString (Regexp.BeginText :: re) s = Regexp.match_here re true s.
Proof.
  unfold Regexp.MatchString.
  destruct s as [|c s]; simpl; [apply orb_false_r|].
  rewrite search_BeginText. apply orb_false_r.
Qed.

Lemma star_loop_glob_run cont1 cont2 :
  (forall b s, has_newline s = false -> cont1 b s = cont2 s) ->
  forall b s, has_newline s = false ->
  Regexp.star_loop Regexp.AnyCharNotNL cont1 b s = glob_run cont2 s.
Proof.
  intros Hc b s. revert b.
  induction s as [|c s IH]; intros b Hs; simpl.
  - now rewrite Hc.
  - simpl in Hs. apply orb_false_elim in Hs. destruct Hs as [Hn Hs].
    rewrite Hn. simpl. rewrite (Hc b) by (simpl; now rewrite Hn, Hs).
    now rewrite IH.
Qed.

(** On a name without a line feed the compiled glob, anchored at the
    end, decides exactly the glob match of the specification. *)
Lemma match_here_compileGlob p :
  forall b s, has_newline s = false ->
  Regexp.match_here (compileGlob p ++ [Regexp.EndText])%list b s = glob_match p s.
Proof.
  induction p as [|c p IH]; intros b s Hs.
  - destruct s; reflexivity.
  - simpl compileGlob. simpl glob_match.
    destruct (Ascii.eqb_spec c "*") as [->|Nstar].
    + simpl. apply star_loop_glob_run; [|exact Hs].
      intros b' s' Hs'. apply IH. exact Hs'.
    + destruct (Ascii.eqb_spec c "?") as [->|Nq]; simpl.
      * destruct s as [|d s]; [reflexivity|].
        simpl in Hs. apply orb_false_elim in Hs. destruct Hs as [Hn Hs].
        rewrite Hn. simpl. apply IH. exact Hs.
      * destruct s as [|d s]; [reflexivity|].
        simpl in Hs. apply orb_false_elim in Hs. destruct Hs as [Hn Hs].
        rewrite (Ascii.eqb_sym d c). rewrite IH by exact Hs. reflexivity.
Qed.

(** X18: the expression built from an ASCII pattern of ordinary size
    compiles, whatever characters the pattern holds: every character
    with a meaning in a regular expression is escaped or translated, so
    on such a pattern the branch of [MatchesPattern] for a malformed
    expression is not taken. *)
Lemma regexPattern_compiles p :
  is_ascii p = true ->
  ordinary_size p ->
  exists re, Regexp.Compile (regexPattern p) = Ok re.
Proof. intros _ _. eexists. apply Compile_regexPattern. Qed.

(** X19: on ASCII names without a line feed and ASCII patterns of
    ordinary size [MatchesPattern] is glob matching of the whole name:
    [*] stands for any run of characters, [?] for exactly one, any other
    character for itself, and the pattern ["*"] matches everything. *)
Lemma MatchesPattern_glob name pattern :
  is_ascii name = true ->
  is_ascii pattern = true ->
  ordinary_size pattern ->
  has_newline name = false ->
  MatchesPattern name pattern = spec_matches name pattern.
Proof.
  intros _ _ _ Hn. unfold MatchesPattern, spec_matches.
  destruct (pattern =? "*")%string; [reflexivity|].
  rewrite Compile_regexPattern, MatchString_anchored.
  apply match_here_compileGlob. exact Hn.
Qed.

End PatternFacts.

(** C7: the matcher is specified as a whole-name glob match in which [*]
    stands for any run of characters and [?] for exactly one, and its
    own doc comment says the same.  On the code a line feed in the name
    is matched by neither wildcard, because both are translated to the
    dot of the regular expression: ["a*b"] and ["?"] reject names the
    specification accepts.  (On ASCII names without a line feed the
    two agree: [MatchesPattern_glob].) *)
Theorem MatchesPattern_line_feed :
  MatchesPattern (String "a" (String Regexp.newline "b")) "a*b" = false /\
  spec_matches (String "a" (String Regexp.newline "b")) "a*b" = true /\
  MatchesPattern (String Regexp.newline "") "?" = false /\
  spec_matches (String Regexp.newline "") "?" = true /\
  MatchesPattern (String "a" (String Regexp.newline "b")) "*" = true.
Proof. repeat split; reflexivity. Qed.

(** ** The scope filter *)

Lemma anyMatches_true name patterns :
  anyMatches name patterns = true <->
  exists p, In p patterns /\ MatchesPattern name p = true.
Proof.
  induction patterns as [|q qs IH]; simpl.
  - split; [discriminate|intros (p & [] & _)].
  - destruct (MatchesPattern name q) eqn:E.
    + split; [intros _; exists q; auto|reflexivity].
    + rewrite IH. split.
      * intros (p & Hin & Hm). exists p. auto.
      * intros (p & [->|Hin] & Hm); [congruence|exists p; auto].
Qed.

Lemma anyMatches_false name patterns :
  anyMatches name patterns = false <->
  forall p, In p patterns -> MatchesPattern name p = false.
Proof.
  split.
  - intros H p Hin. destruct (MatchesPattern name p) eqn:E; [|reflexivity].
    rewrite <- H. symmetry. apply anyMatches_true. exists p. auto.
  - intros H. destruct (anyMatches name patterns) eqn:E; [|reflexivity].
    apply anyMatches_true in E. destruct E as (p & Hin & Hm).
    rewrite (H p Hin) in Hm. discriminate.
Qed.

(** C6: a name that matches some exclude pattern is rejected whatever
    the include patterns are; a name that matches no exclude pattern is
    accepted exactly when it matches some include pattern; with no
    include pattern every name is rejected. *)
Theorem ShouldIncludeRepo_spec (repoName : string)
  (includePatterns excludePatterns : list string) :
  ((exists p, In p excludePatterns /\ MatchesPattern repoName p = true) ->
   ShouldIncludeRepo repoName includePatterns excludePatterns = false) /\
  ((forall p, In p excludePatterns -> MatchesPattern repoName p = false) ->
   (ShouldIncludeRepo repoName includePatterns excludePatterns = true <->
    exists p, In p includePatterns /\ MatchesPattern repoName p = true)) /\
  ShouldIncludeRepo repoName [] excludePatterns = false.
Proof.
  unfold ShouldIncludeRepo. split; [|split].
  - intros H. apply anyMatches_true in H. rewrite H. reflexivity.
  - intros H. apply anyMatches_false in H. rewrite H.
    rewrite <- anyMatches_true.
    destruct (anyMatches repoName includePatterns); split; congruence.
  - simpl. destruct (anyMatches repoName excludePatterns); reflexivity.
Qed.

Lemma ShouldIncludeRepo_spec_witness :
  ShouldIncludeRepo "x-archive" ["*"] ["*-archive"] = false /\
  ShouldIncludeRepo "prod-a" ["prod-*"] ["*-archive"] = true /\
  ShouldIncludeRepo "prod-a" [] ["*-archive"] = false.
Proof.
  split; [|split].
  - apply (proj1 (ShouldIncludeRepo_spec "x-archive" ["*"] ["*-archive"])).
    exists "*-archive". split; [simpl; auto|reflexivity].
  - apply (proj1 (proj2 (ShouldIncludeRepo_spec "prod-a" ["prod-*"] ["*-archive"]))).
    + intros p [<-|[]]. reflexivity.
    + exists "prod-*". split; [simpl; auto|reflexivity].
  - apply (proj2 (proj2 (ShouldIncludeRepo_spec "prod-a" [] ["*-archive"]))).
Defined.

(** ** The metrics aggregator *)

Section AggregatorFacts.

Lemma incr_if_small b z :
  min_int <= z < max_int -> incr_if b z = z + Z.b2z b.
Proof.
  intros H. destruct b; simpl; [apply incr_small; exact H|lia].
Qed.

Lemma b2z_range b : 0 <= Z.b2z b <= 1.
Proof. destruct b; simpl; lia. Qed.

Lemma incr_neq z : incr z <> z.
Proof.
  unfold incr, add, wrap. intros H.
  assert (E : (z + 1 + 2 ^ 63) mod 2 ^ 64 = z + 2 ^ 63) by lia.
  assert (B := Z.mod_pos_bound (z + 1 + 2 ^ 63) (2 ^ 64) ltac:(lia)).
  assert (M : (z + 2 ^ 63) mod 2 ^ 64 = z + 2 ^ 63)
    by (apply Z.mod_small; lia).
  replace (z + 1 + 2 ^ 63) with ((z + 2 ^ 63) + 1) in E by lia.
  rewrite Z.add_mod in E by lia. rewrite M in E.
  change (1 mod 2 ^ 64) with 1 in E.
  destruct (Z.eq_dec (z + 2 ^ 63 + 1) (2 ^ 64)) as [F|F].
  - rewrite F, Z.mod_same in E by lia. lia.
  - rewrite Z.mod_small in E by lia. lia.
Qed.

(** C1: what one call of [processRepository] does to the state.  A
    repository the scope filter rejects adds one to the excluded count
    and changes nothing else.  An accepted one adds one to the included
    count, appends its (owner, name) to the list for the settings phase,
    adds one to the vulnerability-alerts counter exactly when its flag is
    set, leaves the four settings counters alone and, when it has a
    branch-protection rule, adds one to the branch-protection counter and
    to each per-flag counter whose flag is true; without a rule no
    branch-protection counter moves. *)
Theorem processRepository_spec (repo : Repository)
  (includePatterns excludePatterns : list string) (m : metricsAggregator) :
  let m' := processRepository repo includePatterns excludePatterns m in
  let bump (flag : bool) (counter : Z) := if flag then incr counter else counter in
  (ShouldIncludeRepo (Name repo) includePatterns excludePatterns = false ->
   excludedRepos m' = incr (excludedRepos m) /\
   totalRepos m' = totalRepos m /\
   repos m' = repos m /\
   branchProtectionCounters m' = branchProtectionCounters m /\
   securityFeatureCounters m' = securityFeatureCounters m) /\
  (ShouldIncludeRepo (Name repo) includePatterns excludePatterns = true ->
   totalRepos m' = incr (totalRepos m) /\
   excludedRepos m' = excludedRepos m /\
   repos m' = (repos m ++ [{| owner := OwnerLogin repo; name := Name repo |}])%list /\
   vulnerabilityAlertsEnabled m'
   = bump (HasVulnerabilityAlertsEnabled repo) (vulnerabilityAlertsEnabled m) /\
   codeScanningEnabled m' = codeScanningEnabled m /\
   secretScanningEnabled m' = secretScanningEnabled m /\
   secretScanningPushProtection m' = secretScanningPushProtection m /\
   dependabotSecurityUpdatesEnabled m' = dependabotSecurityUpdatesEnabled m /\
   match BranchProtection repo with
   | None => branchProtectionCounters m' = branchProtectionCounters m
   | Some bp =>
     branchProtectionEnabled m' = incr (branchProtectionEnabled m) /\
     requirePullRequest m'
     = bump (RequiresApprovingReviews bp) (requirePullRequest m) /\
     requireApprovingReviews m'
     = bump (RequiresApprovingReviews bp) (requireApprovingReviews m) /\
     dismissStaleReviews m'
     = bump (DismissesStaleReviews bp) (dismissStaleReviews m) /\
     requireCodeOwnerReviews m'
     = bump (RequiresCodeOwnerReviews bp) (requireCodeOwnerReviews m) /\
     requireStatusChecks m'
     = bump (RequiresStatusChecks bp) (requireStatusChecks m) /\
     requireSignedCommits m'
     = bump (RequiresCommitSignatures bp) (requireSignedCommits m) /\
     enforceAdmins m' = bump (IsAdminEnforced bp) (enforceAdmins m)
   end).
Proof.
  intros m' bump. subst m'. unfold processRepository.
  destruct (ShouldIncludeRepo (Name repo) includePatterns excludePatterns);
    simpl; (split; [intros H|intros H]); try discriminate.
  - unfold countVulnerabilityAlerts, countBranchProtection.
    simpl. destruct (BranchProtection repo) as [bp|]; simpl;
      repeat split; reflexivity.
  - repeat split; reflexivity.
Qed.

Lemma processRepository_spec_witness :
  let accepted :=
    processRepository Samples.prodB ["prod-*"] ["*-archive"] newMetrics in
  let rejected :=
    processRepository Samples.testC ["prod-*"] ["*-archive"] accepted in
  (totalRepos accepted = 1 /\ excludedRepos accepted = 0 /\
   repos accepted = [{| owner := "test-org"; name := "prod-b" |}] /\
   branchProtectionEnabled accepted = 1 /\ requireStatusChecks accepted = 1 /\
   dismissStaleReviews accepted = 0 /\ vulnerabilityAlertsEnabled accepted = 0) /\
  (excludedRepos rejected = 1 /\ totalRepos rejected = 1 /\
   repos rejected = repos accepted /\
   branchProtectionCounters rejected = branchProtectionCounters accepted).
Proof.
  intros accepted rejected.
  assert (Ha : ShouldIncludeRepo (Name Samples.prodB) ["prod-*"] ["*-archive"] = true)
    by reflexivity.
  assert (Hr : ShouldIncludeRepo (Name Samples.testC) ["prod-*"] ["*-archive"] = false)
    by reflexivity.
  destruct (processRepository_spec Samples.prodB ["prod-*"] ["*-archive"] newMetrics)
    as [_ A].
  destruct (processRepository_spec Samples.testC ["prod-*"] ["*-archive"] accepted)
    as [R _].
  specialize (A Ha). specialize (R Hr).
  destruct A as (A1 & A2 & A3 & A4 & _ & _ & _ & _ & A5 & _ & _ & A6 & _ & A7 & _).
  destruct R as (R1 & R2 & R3 & R4 & _).
  split.
  - exact (conj A1 (conj A2 (conj A3 (conj A5 (conj A7 (conj A6 A4)))))).
  - exact (conj R1 (conj R2 (conj R3 R4))).
Defined.

Ltac forall_to_conj :=
  repeat rewrite Forall_cons_iff in *; repeat rewrite Forall_nil_iff in *.

Ltac bump_small :=
  repeat rewrite incr_if_small by (unfold min_int, max_int in *; lia);
  repeat rewrite incr_small by (unfold min_int, max_int in *; lia).

Lemma newMetrics_enumeration_inv : enumeration_inv 0 newMetrics.
Proof.
  unfold enumeration_inv, branchProtectionCounters. simpl.
  forall_to_conj. repeat split; lia.
Qed.

Lemma processRepository_enumeration_inv repo inc exc n m :
  enumeration_inv n m -> n < max_int ->
  enumeration_inv (n + 1) (processRepository repo inc exc m).
Proof.
  unfold enumeration_inv, branchProtectionCounters.
  intros (Hsum & Hexc & Hlen & Hall & Hc1 & Hc2 & Hc3 & Hc4) Hn.
  forall_to_conj.
  unfold processRepository.
  destruct (ShouldIncludeRepo (Name repo) inc exc); simpl.
  - unfold countVulnerabilityAlerts, countBranchProtection, countIncluded.
    assert (Bv := b2z_range (HasVulnerabilityAlertsEnabled repo)).
    destruct (BranchProtection repo) as [bp|]; simpl.
    + assert (B1 := b2z_range (RequiresApprovingReviews bp)).
      assert (B2 := b2z_range (DismissesStaleReviews bp)).
      assert (B3 := b2z_range (RequiresCodeOwnerReviews bp)).
      assert (B4 := b2z_range (RequiresStatusChecks bp)).
      assert (B5 := b2z_range (RequiresCommitSignatures bp)).
      assert (B6 := b2z_range (IsAdminEnforced bp)).
      bump_small. rewrite length_app. simpl List.length.
      repeat split; lia.
    + bump_small. rewrite length_app. simpl List.length.
      repeat split; lia.
  - bump_small. repeat split; lia.
Qed.

Lemma processAll_enumeration_inv inc exc observed :
  forall n m,
  enumeration_inv n m ->
  n + Z.of_nat (List.length observed) <= max_int ->
  enumeration_inv (n + Z.of_nat (List.length observed))
                  (processAll inc exc observed m).
Proof.
  induction observed as [|repo rest IH]; intros n m Hinv Hn.
  - simpl. rewrite Z.add_0_r. exact Hinv.
  - simpl List.length in *. rewrite Nat2Z.inj_succ in *.
    unfold processAll. simpl fold_left.
    replace (n + Z.succ (Z.of_nat (List.length rest)))
      with ((n + 1) + Z.of_nat (List.length rest)) by lia.
    apply IH; [|lia].
    apply processRepository_enumeration_inv; [exact Hinv|lia].
Qed.

Lemma countSecuritySettings_settings_inv settings m1 k m :
  settings_inv m1 k m -> 0 <= k < max_int ->
  settings_inv m1 (k + 1) (countSecuritySettings settings m).
Proof.
  unfold settings_inv, branchProtectionCounters.
  intros (H1 & H2 & H3 & H4 & H5 & Hall) Hk.
  forall_to_conj. simpl.
  assert (B1 := b2z_range (CodeScanningEnabled settings)).
  assert (B2 := b2z_range (SecretScanning settings)).
  assert (B3 := b2z_range (SecretScanningPushProtection settings)).
  assert (B4 := b2z_range (DependabotSecurityUpdates settings)).
  bump_small.
  repeat split; try assumption; lia.
Qed.

Lemma countAll_settings_inv counted :
  forall m1 k m,
  settings_inv m1 k m -> 0 <= k ->
  k + Z.of_nat (List.length counted) <= max_int ->
  settings_inv m1 (k + Z.of_nat (List.length counted)) (countAll counted m).
Proof.
  induction counted as [|settings rest IH]; intros m1 k m Hinv Hk Hn.
  - simpl. rewrite Z.add_0_r. exact Hinv.
  - simpl List.length in *. rewrite Nat2Z.inj_succ in *.
    unfold countAll. simpl fold_left.
    replace (k + Z.succ (Z.of_nat (List.length rest)))
      with ((k + 1) + Z.of_nat (List.length rest)) by lia.
    apply IH; [|lia|lia].
    apply countSecuritySettings_settings_inv; [exact Hinv|lia].
Qed.

(** C2: in every state the orchestrated sequence reaches (the observed
    repositories processed one by one, then the settings of at most one
    result per accepted repository counted) the included and the
    excluded count add up to the number of repositories observed, and
    every counter, for branch protection and for the security features
    alike, lies between zero and the included count.  The number of
    observed repositories is one an [int] can hold. *)
Theorem orchestrated_counts_invariant
  (includePatterns excludePatterns : list string)
  (observed : list Repository) (counted : list SecuritySettings) :
  let m1 := processAll includePatterns excludePatterns observed newMetrics in
  let m := countAll counted m1 in
  Z.of_nat (List.length observed) <= max_int ->
  (List.length counted <= List.length (repos m1))%nat ->
  totalRepos m + excludedRepos m = Z.of_nat (List.length observed) /\
  Forall (fun c => 0 <= c <= totalRepos m)
         (branchProtectionCounters m ++ securityFeatureCounters m).
Proof.
  intros m1 m Hn Hk.
  assert (E : enumeration_inv (0 + Z.of_nat (List.length observed)) m1).
  { apply processAll_enumeration_inv; [apply newMetrics_enumeration_inv|lia]. }
  rewrite Z.add_0_l in E.
  destruct E as (Hsum & Hexc & Hlen & Hall & Hc1 & Hc2 & Hc3 & Hc4).
  assert (S0 : settings_inv m1 0 m1).
  { unfold settings_inv. rewrite Hc1, Hc2, Hc3, Hc4. forall_to_conj.
    repeat split; lia. }
  assert (Hk' : Z.of_nat (List.length counted) <= totalRepos m1) by lia.
  assert (Htot : 0 <= totalRepos m1 <= Z.of_nat (List.length observed)).
  { split; [rewrite <- Hlen; lia|lia]. }
  assert (S1 : settings_inv m1 (0 + Z.of_nat (List.length counted)) m).
  { apply countAll_settings_inv; [exact S0|lia|lia]. }
  rewrite Z.add_0_l in S1.
  destruct S1 as (T1 & T2 & T3 & T4 & T5 & Tall).
  split; [rewrite T1, T2; exact Hsum|].
  unfold securityFeatureCounters. rewrite T5, T4, T1.
  unfold branchProtectionCounters in *. simpl app.
  forall_to_conj. repeat split; lia.
Qed.

Lemma orchestrated_counts_invariant_witness :
  let observed := [Samples.prodA; Samples.prodB; Samples.testC] in
  let m :=
    countAll [Samples.allSettings]
             (processAll ["prod-*"] [] observed newMetrics) in
  totalRepos m + excludedRepos m = 3 /\
  Forall (fun c => 0 <= c <= totalRepos m)
         (branchProtectionCounters m ++ securityFeatureCounters m).
Proof.
  intros observed m.
  apply (orchestrated_counts_invariant ["prod-*"] []
           [Samples.prodA; Samples.prodB; Samples.testC] [Samples.allSettings]).
  - unfold max_int. simpl. lia.
  - vm_compute. lia.
Defined.

Lemma apply_call_fields_within c n m :
  fields_within n m -> n < max_int -> fields_within (n + 1) (apply_call m c).
Proof.
  unfold fields_within, branchProtectionCounters, securityFeatureCounters.
  simpl app. intros (Ht & He & Hall) Hn. forall_to_conj.
  destruct c as [repo inc exc|settings]; simpl.
  - unfold processRepository.
    destruct (ShouldIncludeRepo (Name repo) inc exc); simpl.
    + unfold countVulnerabilityAlerts, countBranchProtection, countIncluded.
      assert (Bv := b2z_range (HasVulnerabilityAlertsEnabled repo)).
      destruct (BranchProtection repo) as [bp|]; simpl.
      * assert (B1 := b2z_range (RequiresApprovingReviews bp)).
        assert (B2 := b2z_range (DismissesStaleReviews bp)).
        assert (B3 := b2z_range (RequiresCodeOwnerReviews bp)).
        assert (B4 := b2z_range (RequiresStatusChecks bp)).
        assert (B5 := b2z_range (RequiresCommitSignatures bp)).
        assert (B6 := b2z_range (IsAdminEnforced bp)).
        bump_small. repeat split; lia.
      * bump_small. repeat split; lia.
    + bump_small. repeat split; lia.
  - assert (B1 := b2z_range (CodeScanningEnabled settings)).
    assert (B2 := b2z_range (SecretScanning settings)).
    assert (B3 := b2z_range (SecretScanningPushProtection settings)).
    assert (B4 := b2z_range (DependabotSecurityUpdates settings)).
    bump_small. repeat split; lia.
Qed.

Lemma fold_apply_call_fields_within calls :
  forall n m,
  fields_within n m ->
  n + Z.of_nat (List.length calls) <= max_int ->
  fields_within (n + Z.of_nat (List.length calls)) (fold_left apply_call calls m).
Proof.
  induction calls as [|c rest IH]; intros n m Hinv Hn.
  - simpl. rewrite Z.add_0_r. exact Hinv.
  - simpl List.length in *. rewrite Nat2Z.inj_succ in *. simpl fold_left.
    replace (n + Z.succ (Z.of_nat (List.length rest)))
      with ((n + 1) + Z.of_nat (List.length rest)) by lia.
    apply IH; [|lia].
    apply apply_call_fields_within; [exact Hinv|lia].
Qed.

Lemma run_fields_within calls :
  Z.of_nat (List.length calls) <= max_int ->
  fields_within (Z.of_nat (List.length calls)) (run calls).
Proof.
  intros Hn. unfold run.
  rewrite <- (Z.add_0_l (Z.of_nat (List.length calls))).
  apply fold_apply_call_fields_within; [|lia].
  unfold fields_within, branchProtectionCounters, securityFeatureCounters.
  simpl. forall_to_conj. repeat split; lia.
Qed.

(** With non-negative counters and no overflow the code computes the
    single-truncation formula. *)
Lemma securityFeaturesCoverage_formula n m :
  fields_within n m -> n * 500 <= max_int ->
  (0 < totalRepos m -> securityFeaturesCoverage m = singleTruncation m) /\
  (totalRepos m = 0 -> securityFeaturesCoverage m = 0).
Proof.
  unfold fields_within, branchProtectionCounters, securityFeatureCounters.
  simpl app. intros (Ht & He & Hall) Hn. forall_to_conj.
  unfold securityFeaturesCoverage. split.
  - intros Hpos.
    destruct (Z.eqb_spec (totalRepos m) 0) as [E|_]; [lia|].
    unfold singleTruncation, securityFeatureCounters, exact_sum. simpl fold_right.
    unfold securityFeaturesTotal, MaxPercentage, NumSecurityFeatures.
    rewrite (add_small (vulnerabilityAlertsEnabled m) (codeScanningEnabled m))
      by (unfold in_range, min_int, max_int in *; lia).
    rewrite (add_small _ (secretScanningEnabled m))
      by (unfold in_range, min_int, max_int in *; lia).
    rewrite (add_small _ (secretScanningPushProtection m))
      by (unfold in_range, min_int, max_int in *; lia).
    rewrite (add_small _ (dependabotSecurityUpdatesEnabled m))
      by (unfold in_range, min_int, max_int in *; lia).
    rewrite !mul_small
      by (unfold in_range, min_int, max_int in *; lia).
    rewrite quo_pos;
      [|unfold in_range, min_int, max_int in *; lia|lia].
    rewrite Z.quot_div_nonneg by lia.
    f_equal. lia.
  - intros E. rewrite E. reflexivity.
Qed.

(** C3: in every state of an aggregator (one that a sequence of calls,
    short enough for the counts times five hundred to fit in an [int],
    leaves behind) [securityFeaturesCoverage] is
    [floor(sum of the five security-feature counters * 100 /
    (included * 5))] when the included count is positive and [0] when it
    is zero.  It is not the average of the five truncated percentages:
    with three repositories and the counters 1, 1, 1, 0, 0 the code
    returns 20, as the formula does, where that average is 19. *)
Theorem securityFeaturesCoverage_single_truncation (calls : list call) :
  let m := run calls in
  Z.of_nat (List.length calls) * 500 <= max_int ->
  (0 < totalRepos m -> securityFeaturesCoverage m = singleTruncation m) /\
  (totalRepos m = 0 -> securityFeaturesCoverage m = 0) /\
  (securityFeaturesCoverage (run Samples.unevenCalls) = 20 /\
   singleTruncation (run Samples.unevenCalls) = 20 /\
   averageOfTruncated (run Samples.unevenCalls) = 19).
Proof.
  intros m Hn.
  assert (W : fields_within (Z.of_nat (List.length calls)) m).
  { apply run_fields_within. unfold max_int in *. lia. }
  destruct (securityFeaturesCoverage_formula _ m W Hn) as [A B].
  split; [exact A|]. split; [exact B|].
  repeat split; reflexivity.
Qed.

Lemma securityFeaturesCoverage_single_truncation_witness :
  let m := run Samples.unevenCalls in
  0 < totalRepos m /\
  securityFeaturesCoverage m = singleTruncation m /\
  securityFeaturesCoverage m <> averageOfTruncated m.
Proof.
  intros m.
  assert (Hn : Z.of_nat (List.length Samples.unevenCalls) * 500 <= max_int)
    by (unfold max_int; simpl; lia).
  assert (Hp : 0 < totalRepos m) by (vm_compute; reflexivity).
  destruct (securityFeaturesCoverage_single_truncation Samples.unevenCalls Hn)
    as (A & _ & C1 & _ & C3).
  split; [exact Hp|]. split; [exact (A Hp)|].
  unfold m. rewrite C1, C3. discriminate.
Defined.

Lemma apply_call_same_flag c m :
  requirePullRequest m = requireApprovingReviews m ->
  requirePullRequest (apply_call m c) = requireApprovingReviews (apply_call m c).
Proof.
  intros H. destruct c as [repo inc exc|settings]; simpl; [|exact H].
  unfold processRepository.
  destruct (ShouldIncludeRepo (Name repo) inc exc); simpl; [|exact H].
  unfold countBranchProtection.
  destruct (BranchProtection repo) as [bp|]; simpl; [|exact H].
  rewrite H. reflexivity.
Qed.

Lemma fold_apply_call_same_flag calls :
  forall m,
  requirePullRequest m = requireApprovingReviews m ->
  requirePullRequest (fold_left apply_call calls m)
  = requireApprovingReviews (fold_left apply_call calls m).
Proof.
  induction calls as [|c rest IH]; intros m H; simpl; [exact H|].
  apply IH. apply apply_call_same_flag. exact H.
Qed.

(** C10: in the breakdown computed from any state of an aggregator (the
    state any sequence of calls of its methods leaves behind), the
    fields [pull_request_required] and [approving_reviews] are equal:
    their two counters are only ever incremented together, on the
    required-approving-reviews flag. *)
Theorem pull_request_required_equals_approving_reviews (calls : list call) :
  PullRequestRequired (toBranchProtectionRules (run calls))
  = ApprovingReviews (toBranchProtectionRules (run calls)).
Proof.
  unfold toBranchProtectionRules. simpl.
  f_equal. unfold run. apply fold_apply_call_same_flag. reflexivity.
Qed.

(** X20: the divisor of [securityFeaturesCoverage] is zero only when
    the included count is, wrap-around of the multiplication included:
    behind its test for zero the division never panics. *)
Lemma coverage_divisor_nonzero t :
  in_range t -> t <> 0 -> mul t NumSecurityFeatures <> 0.
Proof.
  unfold in_range, min_int, max_int, mul, wrap, NumSecurityFeatures.
  intros Hr Hz H.
  assert (E : (t * 5 + 2 ^ 63) mod 2 ^ 64 = 2 ^ 63) by lia.
  assert (D := Z.div_mod (t * 5 + 2 ^ 63) (2 ^ 64) ltac:(lia)).
  rewrite E in D.
  set (q := (t * 5 + 2 ^ 63) / 2 ^ 64) in *.
  lia.
Qed.

End AggregatorFacts.

(** ** The orchestrator *)

Section CollectFacts.

Context {W : Type}.

Lemma countSecuritySettings_allDisabled m :
  countSecuritySettings allDisabled m = m.
Proof. destruct m; reflexivity. Qed.

Lemma fetchSecuritySettingsLoop_degrade (c : Collector W) rs :
  forall m w,
  fetchSecuritySettingsLoop (degradeCollector c) rs m w
  = fetchSecuritySettingsLoop c rs m w.
Proof.
  induction rs as [|repo rest IH]; intros m w; simpl; [reflexivity|].
  destruct (FetchSecuritySettings (client c) (owner repo) (name repo) w)
    as [[settings|e] w']; simpl.
  - apply IH.
  - rewrite countSecuritySettings_allDisabled. apply IH.
Qed.

Lemma Collect_degrade (c : Collector W) now w :
  Collect (degradeCollector c) now w = Collect c now w.
Proof.
  unfold Collect, fetchSecuritySettings. simpl.
  destruct (ConfigOrganization (config c) =? "")%string; [reflexivity|].
  destruct (FetchOrgSecurity (client c) (ConfigOrganization (config c)) w)
    as [[orgSecurity|e] w1]; [|reflexivity].
  destruct (FetchRepositories (client c) (ConfigOrganization (config c)) w1)
    as [[pages [e|]] w2]; [reflexivity|].
  rewrite fetchSecuritySettingsLoop_degrade. reflexivity.
Qed.

(** The settings phase touches the four settings counters only. *)
Lemma fetchSecuritySettingsLoop_preserves (c : Collector W) rs :
  forall m w,
  let m' := fst (fetchSecuritySettingsLoop c rs m w) in
  totalRepos m' = totalRepos m /\
  excludedRepos m' = excludedRepos m /\
  repos m' = repos m /\
  branchProtectionCounters m' = branchProtectionCounters m /\
  vulnerabilityAlertsEnabled m' = vulnerabilityAlertsEnabled m.
Proof.
  induction rs as [|repo rest IH]; intros m w; simpl.
  - repeat split; reflexivity.
  - destruct (FetchSecuritySettings (client c) (owner repo) (name repo) w)
      as [[settings|e] w'].
    + destruct (IH (countSecuritySettings settings m) w')
        as (H1 & H2 & H3 & H4 & H5).
      rewrite H1, H2, H3, H4, H5. repeat split; reflexivity.
    + apply IH.
Qed.

(** The state [Collect] builds its report from is one the orchestrated
    sequence reaches: the repositories of all pages processed in order,
    then at most one settings value counted per accepted repository. *)
Lemma processPages_processAll inc exc pages :
  forall m, processPages inc exc m pages = processAll inc exc (List.concat pages) m.
Proof.
  induction pages as [|page rest IH]; intros m; [reflexivity|].
  simpl. unfold processAll. rewrite fold_left_app.
  apply IH.
Qed.

Lemma fetchSecuritySettingsLoop_countAll (c : Collector W) rs :
  forall m w,
  exists counted,
    (List.length counted <= List.length rs)%nat /\
    fst (fetchSecuritySettingsLoop c rs m w) = countAll counted m.
Proof.
  induction rs as [|repo rest IH]; intros m w; simpl.
  - exists []. split; [simpl; lia|reflexivity].
  - destruct (FetchSecuritySettings (client c) (owner repo) (name repo) w)
      as [[settings|e] w'].
    + destruct (IH (countSecuritySettings settings m) w') as (counted & Hl & He).
      exists (settings :: counted). split; [simpl; lia|exact He].
    + destruct (IH m w') as (counted & Hl & He).
      exists counted. split; [lia|exact He].
Qed.

Lemma settled_orchestrated (c : Collector W) pages w2 :
  let m1 :=
    processAll (effectiveIncludePatterns (config c))
               (ConfigExcludePatterns (config c)) (List.concat pages) newMetrics in
  exists counted,
    (List.length counted <= List.length (repos m1))%nat /\
    settled c pages w2 = countAll counted m1.
Proof.
  intros m1. unfold settled, enumerated, fetchSecuritySettings.
  rewrite processPages_processAll. fold m1.
  apply fetchSecuritySettingsLoop_countAll.
Qed.

(** When the two fatal phases succeed [Collect] returns the report built
    from the state the settings phase leaves. *)
Lemma Collect_report (c : Collector W) now w orgSecurity w1 pages w2 :
  ConfigOrganization (config c) <> "" ->
  FetchOrgSecurity (client c) (ConfigOrganization (config c)) w
  = (Ok orgSecurity, w1) ->
  FetchRepositories (client c) (ConfigOrganization (config c)) w1
  = ((pages, None), w2) ->
  fst (Collect c now w)
  = Report (populatePosture c (NewOrgPosture (ConfigOrganization (config c)) now)
                            orgSecurity (settled c pages w2)
                            (effectiveIncludePatterns (config c))).
Proof.
  intros Horg H1 H2. unfold Collect.
  apply String.eqb_neq in Horg. rewrite Horg, H1, H2.
  unfold settled, enumerated, effectiveIncludePatterns.
  destruct (fetchSecuritySettings c _ w2) as [m' w3]. reflexivity.
Qed.

(** C5 (amended): for a non-empty organization name, [Collect] returns an
    error, and no report, exactly when the org-security fetch fails or,
    that one having succeeded, the repository enumeration fails.  A
    failed settings fetch for one repository is skipped: the state is
    left as it was, as counting the all-disabled settings would leave
    it, the included count and the identity list are those the
    enumeration produced, and the run returns the very report it returns
    against the client that answers all-disabled where this one fails. *)
Theorem Collect_fails_iff_fatal_phase (c : Collector W) (now : string) (w : W) :
  let org := ConfigOrganization (config c) in
  org <> "" ->
  ((exists err, fst (Collect c now w) = Failed err) <->
   ((exists err, fst (FetchOrgSecurity (client c) org w) = Err err) \/
    (exists orgSecurity w1 err,
       FetchOrgSecurity (client c) org w = (Ok orgSecurity, w1) /\
       snd (fst (FetchRepositories (client c) org w1)) = Some err))) /\
  (forall orgSecurity w1 pages w2,
     FetchOrgSecurity (client c) org w = (Ok orgSecurity, w1) ->
     FetchRepositories (client c) org w1 = ((pages, None), w2) ->
     exists posture, fst (Collect c now w) = Report posture) /\
  (forall repo rest m w0 err w',
     FetchSecuritySettings (client c) (owner repo) (name repo) w0 = (Err err, w') ->
     fetchSecuritySettingsLoop c (repo :: rest) m w0
     = fetchSecuritySettingsLoop c rest m w' /\
     countSecuritySettings allDisabled m = m) /\
  (forall m w0,
     totalRepos (fst (fetchSecuritySettings c m w0)) = totalRepos m /\
     repos (fst (fetchSecuritySettings c m w0)) = repos m) /\
  Collect (degradeCollector c) now w = Collect c now w.
Proof.
  intros org Horg. split; [|split; [|split; [|split]]].
  - unfold Collect. fold org.
    destruct (String.eqb_spec org "") as [E|_]; [contradiction|].
    destruct (FetchOrgSecurity (client c) org w) as [[orgSecurity|e] w1] eqn:H1;
      simpl.
    + destruct (FetchRepositories (client c) org w1) as [[pages [e|]] w2] eqn:H2;
        simpl.
      * split; [|intros _; eexists; reflexivity].
        intros _. right. exists orgSecurity, w1, e. rewrite H2. auto.
      * destruct (fetchSecuritySettings c _ w2) as [m' w3]. simpl. split.
        -- intros [err F]. discriminate.
        -- intros [[err F]|(s & w1' & err & F1 & F2)]; [discriminate|].
           injection F1 as <- <-. rewrite H2 in F2. discriminate.
    + split; [|intros _; eexists; reflexivity].
      intros _. left. exists e. reflexivity.
  - intros orgSecurity w1 pages w2 H1 H2. eexists.
    apply (Collect_report c now w orgSecurity w1 pages w2 Horg H1 H2).
  - intros repo rest m w0 err w' H. simpl. rewrite H.
    split; [reflexivity|apply countSecuritySettings_allDisabled].
  - intros m w0. unfold fetchSecuritySettings.
    destruct (fetchSecuritySettingsLoop_preserves c (repos m) m w0)
      as (H1 & _ & H3 & _). split; assumption.
  - apply Collect_degrade.
Qed.

End CollectFacts.

(** C5, as stated, fails on the code: with an empty organization name
    [Collect] returns an error before any fetch, although neither the
    org-security fetch nor the enumeration fails for this client. *)
Lemma Collect_empty_organization_fails :
  let mock :=
    Samples.mockGitHubClient (Samples.knownOrg true) [[Samples.prodA]] None
                             Samples.allSettings [] in
  let c := Samples.collector "" ["*"] [] mock in
  fst (Collect c Samples.now tt) = Failed "organization is required" /\
  fst (FetchOrgSecurity mock "" tt) = Samples.knownOrg true /\
  snd (fst (FetchRepositories mock "" tt)) = None.
Proof. repeat split; reflexivity. Qed.


Lemma Collect_fails_iff_fatal_phase_witness :
  let mock :=
    Samples.mockGitHubClient (Samples.knownOrg true)
                             [[Samples.prodA; Samples.prodB]] None
                             Samples.allSettings ["prod-b"] in
  let c := Samples.collector "test-org" ["*"] [] mock in
  ConfigOrganization (config c) <> "" /\
  (exists posture, fst (Collect c Samples.now tt) = Report posture) /\
  Collect (degradeCollector c) Samples.now tt = Collect c Samples.now tt.
Proof.
  intros mock c.
  assert (Horg : ConfigOrganization (config c) <> "") by discriminate.
  destruct (Collect_fails_iff_fatal_phase c Samples.now tt Horg)
    as (_ & R & _ & _ & D).
  split; [exact Horg|]. split; [|exact D].
  apply (R {| TwoFactorRequired := Some true |} tt
           [[Samples.prodA; Samples.prodB]] tt); reflexivity.
Defined.

(** ** The expectations of the test suite, replayed on the embedding *)

Example TestPercent :
  map (fun '(count, total) => percent count total)
      [(5, 0); (0, 100); (50, 100); (100, 100); (1, 3); (2, 3); (1, 10); (45, 45)]
  = [0; 0; 50; 100; 33; 66; 10; 100].
Proof. vm_compute. reflexivity. Qed.

Example TestMatchesPattern :
  map (fun '(repoName, pattern) => MatchesPattern repoName pattern)
      [("any-repo", "*"); ("my-repo", "my-repo"); ("my-repo", "other-repo");
       ("my-repo", "my-*"); ("other-repo", "my-*");
       ("repo-archive", "*-archive"); ("repo-active", "*-archive");
       ("test-repo-v1", "test-*-v1"); ("repo1", "repo?"); ("repo12", "repo?");
       ("repo.name", "repo.name"); ("repoXname", "repo.name")]
  = [true; true; false; true; false; true; false; true; true; false; true; false].
Proof. vm_compute. reflexivity. Qed.

Example TestShouldIncludeRepo :
  ShouldIncludeRepo "any-repo" ["*"] [] = true /\
  ShouldIncludeRepo "repo-archive" ["*"] ["*-archive"] = false /\
  ShouldIncludeRepo "frontend-app" ["frontend-*"; "backend-*"] [] = true /\
  ShouldIncludeRepo "random-repo" ["frontend-*"; "backend-*"] [] = false /\
  ShouldIncludeRepo "test-repo" ["*"] ["*-archive"; "test-*"] = false.
Proof. vm_compute. repeat split; reflexivity. Qed.

(** Three repositories, two of them protected, none excluded. *)
Example scenario_full_organization :
  let c :=
    Samples.collector "test-org" ["*"] []
      (Samples.mockGitHubClient (Samples.knownOrg true)
         [[Samples.prodA; Samples.prodB; Samples.testC]] None
         Samples.noSettings []) in
  match fst (Collect c Samples.now tt) with
  | Report posture =>
    RepositoriesCoverage (PostureScope posture) = 100 /\
    BranchProtectionCoverage (PosturePosture posture) = 66 /\
    StatusChecks (PostureBranchProtectionRules posture) = 66 /\
    SignedCommits (PostureBranchProtectionRules posture) = 33
  | Failed _ => False
  end.
Proof. vm_compute. repeat split; reflexivity. Qed.

(** The same repositories with an include pattern that keeps two. *)
Example scenario_with_filters :
  let c :=
    Samples.collector "test-org" ["prod-*"] []
      (Samples.mockGitHubClient (Samples.knownOrg true)
         [[Samples.prodA]; [Samples.prodB; Samples.testC]] None
         Samples.noSettings []) in
  match fst (Collect c Samples.now tt) with
  | Report posture => RepositoriesCoverage (PostureScope posture) = 66
  | Failed _ => False
  end.
Proof. vm_compute. reflexivity. Qed.

(** A failing fetch in each of the two fatal phases. *)
Example scenario_fatal_phases :
  fst (Collect (Samples.collector "test-org" [] []
                  (Samples.mockGitHubClient (Err "API rate limit exceeded")
                     [] None Samples.noSettings []))
               Samples.now tt)
  = Failed "failed to fetch org security: API rate limit exceeded" /\
  fst (Collect (Samples.collector "test-org" [] []
                  (Samples.mockGitHubClient (Samples.knownOrg true)
                     [[Samples.prodA]] (Some "network timeout")
                     Samples.noSettings []))
               Samples.now tt)
  = Failed "failed to fetch repositories: network timeout".
Proof. vm_compute. split; reflexivity. Qed.

(** One settings fetch fails: the repository counts for nothing in the
    four settings counters and still counts as included. *)
Example scenario_degraded_settings :
  let c :=
    Samples.collector "test-org" ["*"] []
      (Samples.mockGitHubClient (Samples.knownOrg true)
         [[Samples.prodA; Samples.prodB]] None
         Samples.allSettings ["prod-b"]) in
  match fst (Collect c Samples.now tt) with
  | Report posture =>
    RepositoriesCoverage (PostureScope posture) = 100 /\
    CodeScanning (PostureSecurityFeatures posture) = 50 /\
    FeatureSecretScanning (PostureSecurityFeatures posture) = 50 /\
    VulnerabilityAlerts (PostureSecurityFeatures posture) = 50 /\
    BranchProtectionCoverage (PosturePosture posture) = 100
  | Failed _ => False
  end.
Proof. vm_compute. repeat split; reflexivity. Qed.

(* ================================================================== *)
(** * Part V: further properties of the code                           *)
(* ================================================================== *)

(** ** What the counters count *)

Ltac forall_to_conj :=
  repeat rewrite Forall_cons_iff in *; repeat rewrite Forall_nil_iff in *.

Ltac bump_small :=
  repeat rewrite incr_if_small by (unfold min_int, max_int in *; lia);
  repeat rewrite incr_small by (unfold min_int, max_int in *; lia).

Section CountingFacts.

Local Arguments Z.add : simpl never.
Local Arguments Z.of_nat : simpl never.

Lemma countWhere_cons {A : Type} (p : A -> bool) x l :
  countWhere p (x :: l) = Z.b2z (p x) + countWhere p l.
Proof.
  unfold countWhere. simpl. destruct (p x); simpl List.length; simpl Z.b2z; lia.
Qed.

Lemma countWhere_nonneg {A : Type} (p : A -> bool) l : 0 <= countWhere p l.
Proof. unfold countWhere. lia. Qed.

Lemma processRepository_fields_within repo inc exc n m :
  fields_within n m -> n < max_int ->
  fields_within (n + 1) (processRepository repo inc exc m).
Proof.
  intros H Hn.
  exact (apply_call_fields_within (CallProcessRepository repo inc exc) n m H Hn).
Qed.

Lemma countSecuritySettings_fields_within settings n m :
  fields_within n m -> n < max_int ->
  fields_within (n + 1) (countSecuritySettings settings m).
Proof.
  intros H Hn.
  exact (apply_call_fields_within (CallCountSecuritySettings settings) n m H Hn).
Qed.

Lemma newMetrics_fields_within : fields_within 0 newMetrics.
Proof.
  unfold fields_within, branchProtectionCounters, securityFeatureCounters.
  simpl. forall_to_conj. repeat split; lia.
Qed.

Lemma processAll_counts inc exc observed :
  let acc := fun repo => ShouldIncludeRepo (Name repo) inc exc in
  forall n m,
  fields_within n m ->
  n + Z.of_nat (List.length observed) <= max_int ->
  let m' := processAll inc exc observed m in
  fields_within (n + Z.of_nat (List.length observed)) m' /\
  totalRepos m' = totalRepos m + countWhere acc observed /\
  excludedRepos m' = excludedRepos m + countWhere (fun r => negb (acc r)) observed /\
  repos m' = (repos m ++ map repoIdentity (filter acc observed))%list /\
  vulnerabilityAlertsEnabled m'
  = vulnerabilityAlertsEnabled m
    + countWhere (fun r => acc r && HasVulnerabilityAlertsEnabled r) observed /\
  branchProtectionEnabled m'
  = branchProtectionEnabled m
    + countWhere (fun r => acc r && ruleHas (fun _ => true) r) observed /\
  requirePullRequest m'
  = requirePullRequest m
    + countWhere (fun r => acc r && ruleHas RequiresApprovingReviews r) observed /\
  requireApprovingReviews m'
  = requireApprovingReviews m
    + countWhere (fun r => acc r && ruleHas RequiresApprovingReviews r) observed /\
  dismissStaleReviews m'
  = dismissStaleReviews m
    + countWhere (fun r => acc r && ruleHas DismissesStaleReviews r) observed /\
  requireCodeOwnerReviews m'
  = requireCodeOwnerReviews m
    + countWhere (fun r => acc r && ruleHas RequiresCodeOwnerReviews r) observed /\
  requireStatusChecks m'
  = requireStatusChecks m
    + countWhere (fun r => acc r && ruleHas RequiresStatusChecks r) observed /\
  requireSignedCommits m'
  = requireSignedCommits m
    + countWhere (fun r => acc r && ruleHas RequiresCommitSignatures r) observed /\
  enforceAdmins m'
  = enforceAdmins m
    + countWhere (fun r => acc r && ruleHas IsAdminEnforced r) observed /\
  codeScanningEnabled m' = codeScanningEnabled m /\
  secretScanningEnabled m' = secretScanningEnabled m /\
  secretScanningPushProtection m' = secretScanningPushProtection m /\
  dependabotSecurityUpdatesEnabled m' = dependabotSecurityUpdatesEnabled m.
Proof.
  intros acc. induction observed as [|repo rest IH]; intros n m Hw Hn m'.
  - subst m'. split.
    { simpl. rewrite Z.add_0_r. exact Hw. }
    unfold countWhere. simpl.
    rewrite !Z.add_0_r, app_nil_r. repeat split; reflexivity.
  - simpl List.length in *. rewrite Nat2Z.inj_succ in *.
    assert (Hw1 := processRepository_fields_within repo inc exc n m Hw ltac:(lia)).
    specialize (IH (n + 1) (processRepository repo inc exc m) Hw1 ltac:(lia)).
    cbv zeta in IH.
    change m' with (processAll inc exc rest (processRepository repo inc exc m)).
    destruct IH as (I0 & I1 & I2 & I3 & I4 & I5 & I6 & I7 & I8 & I9 & I10 & I11
                    & I12 & I13 & I14 & I15 & I16).
    rewrite I1, I2, I3, I4, I5, I6, I7, I8, I9, I10, I11, I12, I13, I14, I15, I16.
    rewrite !countWhere_cons. simpl filter.
    split.
    { replace (n + Z.succ (Z.of_nat (List.length rest)))
        with (n + 1 + Z.of_nat (List.length rest)) by lia. exact I0. }
    clear I0 I1 I2 I3 I4 I5 I6 I7 I8 I9 I10 I11 I12 I13 I14 I15 I16 Hw1.
    unfold fields_within, branchProtectionCounters, securityFeatureCounters in Hw.
    simpl app in Hw. destruct Hw as (Ht & He & Hall). forall_to_conj.
    unfold ruleHas. subst acc. cbv beta.
    unfold processRepository.
    destruct (ShouldIncludeRepo (Name repo) inc exc); simpl negb; cbv iota.
    + unfold countVulnerabilityAlerts, countBranchProtection, countIncluded.
      assert (Bv := b2z_range (HasVulnerabilityAlertsEnabled repo)).
      destruct (BranchProtection repo) as [bp|]; simpl.
      * assert (B1 := b2z_range (RequiresApprovingReviews bp)).
        assert (B2 := b2z_range (DismissesStaleReviews bp)).
        assert (B3 := b2z_range (RequiresCodeOwnerReviews bp)).
        assert (B4 := b2z_range (RequiresStatusChecks bp)).
        assert (B5 := b2z_range (RequiresCommitSignatures bp)).
        assert (B6 := b2z_range (IsAdminEnforced bp)).
        bump_small. rewrite <- app_assoc. simpl app.
        repeat split; try reflexivity; lia.
      * bump_small. rewrite <- app_assoc. simpl app.
        repeat split; try reflexivity; lia.
    + simpl. bump_small. repeat split; try reflexivity; lia.
Qed.

Lemma countAll_counts counted :
  forall n m,
  fields_within n m ->
  n + Z.of_nat (List.length counted) <= max_int ->
  let m' := countAll counted m in
  fields_within (n + Z.of_nat (List.length counted)) m' /\
  codeScanningEnabled m'
  = codeScanningEnabled m + countWhere CodeScanningEnabled counted /\
  secretScanningEnabled m'
  = secretScanningEnabled m + countWhere SecretScanning counted /\
  secretScanningPushProtection m'
  = secretScanningPushProtection m
    + countWhere SecretScanningPushProtection counted /\
  dependabotSecurityUpdatesEnabled m'
  = dependabotSecurityUpdatesEnabled m
    + countWhere DependabotSecurityUpdates counted /\
  totalRepos m' = totalRepos m /\
  excludedRepos m' = excludedRepos m /\
  repos m' = repos m /\
  vulnerabilityAlertsEnabled m' = vulnerabilityAlertsEnabled m /\
  branchProtectionCounters m' = branchProtectionCounters m.
Proof.
  induction counted as [|settings rest IH]; intros n m Hw Hn m'.
  - subst m'. split.
    { simpl. rewrite Z.add_0_r. exact Hw. }
    unfold countWhere. simpl. rewrite !Z.add_0_r. repeat split; reflexivity.
  - simpl List.length in *. rewrite Nat2Z.inj_succ in *.
    assert (Hw1 := countSecuritySettings_fields_within settings n m Hw ltac:(lia)).
    specialize (IH (n + 1) (countSecuritySettings settings m) Hw1 ltac:(lia)).
    cbv zeta in IH.
    change m' with (countAll rest (countSecuritySettings settings m)).
    destruct IH as (I0 & I1 & I2 & I3 & I4 & I5 & I6 & I7 & I8 & I9).
    rewrite I1, I2, I3, I4, I5, I6, I7, I8, I9.
    rewrite !countWhere_cons.
    split.
    { replace (n + Z.succ (Z.of_nat (List.length rest)))
        with (n + 1 + Z.of_nat (List.length rest)) by lia. exact I0. }
    clear I0 I1 I2 I3 I4 I5 I6 I7 I8 I9 Hw1.
    unfold fields_within, branchProtectionCounters, securityFeatureCounters in Hw.
    simpl app in Hw. destruct Hw as (Ht & He & Hall). forall_to_conj.
    assert (B1 := b2z_range (CodeScanningEnabled settings)).
    assert (B2 := b2z_range (SecretScanning settings)).
    assert (B3 := b2z_range (SecretScanningPushProtection settings)).
    assert (B4 := b2z_range (DependabotSecurityUpdates settings)).
    simpl. bump_small. repeat split; try reflexivity; lia.
Qed.

Lemma countWhere_filter {A : Type} (p q : A -> bool) l :
  countWhere (fun x => p x && q x) l = countWhere q (filter p l).
Proof.
  unfold countWhere. f_equal.
  induction l as [|x l IH]; [reflexivity|].
  simpl. destruct (p x); simpl; [destruct (q x); simpl; now rewrite IH|exact IH].
Qed.

Lemma countWhere_true {A : Type} (p : A -> bool) l :
  countWhere p l = Z.of_nat (List.length (filter p l)).
Proof. reflexivity. Qed.

(** X1: the counters count what their names say.  After the observed
    repositories were processed and some settings counted (no more calls
    than an [int] can number), the identity list holds the accepted
    repositories in the order they were observed, the included and the
    excluded count are the numbers of accepted and of rejected
    repositories, each branch-protection counter is the number of
    accepted repositories whose rule has the flag, the alerts counter
    the number of accepted repositories with alerts on, and each
    settings counter the number of counted settings with the feature
    on. *)
Theorem aggregator_counts_exact (includePatterns excludePatterns : list string)
  (observed : list Repository) (counted : list SecuritySettings) :
  let kept := accepted includePatterns excludePatterns observed in
  let m :=
    countAll counted (processAll includePatterns excludePatterns observed newMetrics) in
  Z.of_nat (List.length observed) + Z.of_nat (List.length counted) <= max_int ->
  repos m = map repoIdentity kept /\
  totalRepos m = Z.of_nat (List.length kept) /\
  excludedRepos m
  = Z.of_nat (List.length (rejected includePatterns excludePatterns observed)) /\
  vulnerabilityAlertsEnabled m = countWhere HasVulnerabilityAlertsEnabled kept /\
  branchProtectionEnabled m = countWhere (ruleHas (fun _ => true)) kept /\
  requirePullRequest m = countWhere (ruleHas RequiresApprovingReviews) kept /\
  requireApprovingReviews m = countWhere (ruleHas RequiresApprovingReviews) kept /\
  dismissStaleReviews m = countWhere (ruleHas DismissesStaleReviews) kept /\
  requireCodeOwnerReviews m = countWhere (ruleHas RequiresCodeOwnerReviews) kept /\
  requireStatusChecks m = countWhere (ruleHas RequiresStatusChecks) kept /\
  requireSignedCommits m = countWhere (ruleHas RequiresCommitSignatures) kept /\
  enforceAdmins m = countWhere (ruleHas IsAdminEnforced) kept /\
  codeScanningEnabled m = countWhere CodeScanningEnabled counted /\
  secretScanningEnabled m = countWhere SecretScanning counted /\
  secretScanningPushProtection m
  = countWhere SecretScanningPushProtection counted /\
  dependabotSecurityUpdatesEnabled m
  = countWhere DependabotSecurityUpdates counted.
Proof.
  intros kept m Hn.
  destruct (processAll_counts includePatterns excludePatterns observed 0 newMetrics
              newMetrics_fields_within ltac:(lia))
    as (P0 & P1 & P2 & P3 & P4 & P5 & P6 & P7 & P8 & P9 & P10 & P11 & P12
        & P13 & P14 & P15 & P16).
  destruct (countAll_counts counted _ _ P0 ltac:(lia))
    as (_ & C1 & C2 & C3 & C4 & C5 & C6 & C7 & C8 & C9).
  fold m in C1, C2, C3, C4, C5, C6, C7, C8, C9.
  unfold branchProtectionCounters in C9.
  injection C9 as D1 D2 D3 D4 D5 D6 D7 D8.
  rewrite C1, C2, C3, C4, C5, C6, C7, C8, D1, D2, D3, D4, D5, D6, D7, D8.
  rewrite P1, P2, P3, P4, P5, P6, P7, P8, P9, P10, P11, P12, P13, P14, P15, P16.
  rewrite !countWhere_filter. simpl. rewrite !Z.add_0_l.
  repeat split; reflexivity.
Qed.

Lemma aggregator_counts_exact_witness :
  let m :=
    countAll [Samples.allSettings; Samples.noSettings]
             (processAll ["prod-*"] []
                         [Samples.prodA; Samples.testC; Samples.prodB] newMetrics) in
  repos m = [{| owner := "test-org"; name := "prod-a" |};
             {| owner := "test-org"; name := "prod-b" |}] /\
  totalRepos m = 2 /\ excludedRepos m = 1 /\
  requireSignedCommits m = 1 /\ codeScanningEnabled m = 1.
Proof.
  intros m.
  assert (Hn : Z.of_nat 3 + Z.of_nat 2 <= max_int) by (unfold max_int; simpl; lia).
  destruct (aggregator_counts_exact ["prod-*"] []
              [Samples.prodA; Samples.testC; Samples.prodB]
              [Samples.allSettings; Samples.noSettings] Hn)
    as (A1 & A2 & A3 & _ & _ & _ & _ & _ & _ & _ & A4 & _ & A5 & _).
  exact (conj A1 (conj A2 (conj A3 (conj A4 A5)))).
Defined.

End CountingFacts.

(** ** The settings phase *)

Section SettingsPhaseFacts.

Context {W : Type}.

Lemma incr_if_comm a b z : incr_if a (incr_if b z) = incr_if b (incr_if a z).
Proof. destruct a, b; reflexivity. Qed.

Lemma countSecuritySettings_comm s1 s2 m :
  countSecuritySettings s1 (countSecuritySettings s2 m)
  = countSecuritySettings s2 (countSecuritySettings s1 m).
Proof.
  unfold countSecuritySettings. simpl.
  f_equal; apply incr_if_comm.
Qed.

(** X2: the outcome of counting settings does not depend on the order in
    which the answers arrive: any rearrangement of the same answers
    leaves the same state, wrap-around included. *)
Theorem countAll_order_independent (counted counted' : list SecuritySettings)
  (m : metricsAggregator) :
  Permutation counted counted' -> countAll counted m = countAll counted' m.
Proof.
  intros P. revert m.
  induction P as [|s l l' P IH|s1 s2 l|l l' l'' P1 IH1 P2 IH2]; intros m.
  - reflexivity.
  - unfold countAll in *. simpl. apply IH.
  - unfold countAll. simpl. rewrite countSecuritySettings_comm. reflexivity.
  - rewrite IH1. apply IH2.
Qed.

(** X3: the settings phase asks the client exactly once for every
    accepted repository, in the order of the identity list, whether or
    not earlier requests failed: the world it leaves is the one those
    requests, one after the other, leave. *)
Theorem fetchSecuritySettings_one_request_each (c : Collector W)
  (m : metricsAggregator) (w : W) :
  snd (fetchSecuritySettings c m w)
  = fold_left (fun w repo =>
                 snd (FetchSecuritySettings (client c) (owner repo) (name repo) w))
              (repos m) w.
Proof.
  unfold fetchSecuritySettings. generalize (repos m) as rs. intros rs.
  generalize m as m0. revert w.
  induction rs as [|repo rest IH]; intros w m0; simpl; [reflexivity|].
  destruct (FetchSecuritySettings (client c) (owner repo) (name repo) w)
    as [[settings|e] w']; simpl; apply IH.
Qed.

End SettingsPhaseFacts.

Lemma countAll_order_independent_witness :
  countAll [Samples.allSettings; Samples.twoSettings; Samples.noSettings] newMetrics
  = countAll [Samples.noSettings; Samples.allSettings; Samples.twoSettings] newMetrics.
Proof.
  apply countAll_order_independent.
  apply Permutation_sym.
  apply (Permutation_cons_append [Samples.allSettings; Samples.twoSettings]
                                 Samples.noSettings).
Defined.

(** ** The report *)

Section ReportFacts.

Context {W : Type}.

Lemma percent_unit_interval count total :
  0 <= count <= total -> count * 100 <= max_int ->
  0 <= percent count total <= 100.
Proof.
  intros [Hc Ht] Hm.
  destruct (Z.eq_dec total 0) as [->|Hnz].
  - rewrite percent_zero_total. lia.
  - rewrite percent_div by lia. split.
    + apply Z.div_pos; lia.
    + apply Z.div_le_upper_bound; lia.
Qed.

(** The state a run reports from: the counts add up and every counter is
    between zero and the included count. *)
Lemma settled_within (c : Collector W) pages w2 :
  let n := Z.of_nat (List.length (List.concat pages)) in
  let m := settled c pages w2 in
  n <= max_int ->
  totalRepos m + excludedRepos m = n /\
  0 <= totalRepos m /\ 0 <= excludedRepos m /\
  Forall (fun x => 0 <= x <= totalRepos m)
         (branchProtectionCounters m ++ securityFeatureCounters m).
Proof.
  intros n m Hn.
  destruct (settled_orchestrated c pages w2) as (counted & Hk & Hm).
  fold m in Hm.
  set (m1 := processAll (effectiveIncludePatterns (config c))
                        (ConfigExcludePatterns (config c))
                        (List.concat pages) newMetrics) in *.
  assert (E : enumeration_inv (0 + n) m1).
  { apply processAll_enumeration_inv; [apply newMetrics_enumeration_inv|].
    fold n. lia. }
  rewrite Z.add_0_l in E.
  destruct E as (Hsum & Hexc & Hlen & Hall & Hc1 & Hc2 & Hc3 & Hc4).
  assert (S0 : settings_inv m1 0 m1).
  { unfold settings_inv. rewrite Hc1, Hc2, Hc3, Hc4. forall_to_conj.
    repeat split; lia. }
  assert (Htot : 0 <= totalRepos m1 <= n) by (split; [rewrite <- Hlen; lia|lia]).
  assert (S1 : settings_inv m1 (0 + Z.of_nat (List.length counted))
                            (countAll counted m1)).
  { apply countAll_settings_inv; [exact S0|lia|lia]. }
  rewrite Z.add_0_l, <- Hm in S1.
  destruct S1 as (T1 & T2 & T3 & T4 & T5 & Tall).
  rewrite T1, T2.
  split; [exact Hsum|]. split; [lia|]. split; [lia|].
  unfold securityFeatureCounters. rewrite T5, T4.
  unfold branchProtectionCounters in *. simpl app.
  forall_to_conj. repeat split; lia.
Qed.

(** X4: every percentage of every report [Collect] returns lies between
    0 and 100, as long as five hundred times the number of repositories
    the client delivered fits in an [int]. *)
Theorem Collect_percentages_in_range (c : Collector W) (now : string) (w w1 w2 : W)
  (orgSecurity : OrgSecurity) (pages : list (list Repository))
  (posture : OrgPosture) :
  FetchOrgSecurity (client c) (ConfigOrganization (config c)) w
  = (Ok orgSecurity, w1) ->
  FetchRepositories (client c) (ConfigOrganization (config c)) w1
  = ((pages, None), w2) ->
  Z.of_nat (List.length (List.concat pages)) * 500 <= max_int ->
  fst (Collect c now w) = Report posture ->
  Forall (fun p => 0 <= p <= 100) (reportPercentages posture).
Proof.
  intros H1 H2 Hn HR.
  assert (Horg : ConfigOrganization (config c) <> "").
  { intros E. unfold Collect in HR. rewrite E in HR. simpl in HR. discriminate. }
  rewrite (Collect_report c now w orgSecurity w1 pages w2 Horg H1 H2) in HR.
  injection HR as <-.
  set (n := Z.of_nat (List.length (List.concat pages))) in *.
  assert (Hmax : n <= max_int) by (unfold max_int in *; lia).
  destruct (settled_within c pages w2 Hmax) as (Hsum & Ht & He & Hall).
  fold n in Hsum.
  set (m := settled c pages w2) in *.
  unfold branchProtectionCounters, securityFeatureCounters in Hall.
  simpl app in Hall. forall_to_conj.
  assert (Hw : fields_within n m).
  { unfold fields_within, branchProtectionCounters, securityFeatureCounters.
    simpl app. forall_to_conj. repeat split; lia. }
  assert (Hcov : 0 <= securityFeaturesCoverage m <= 100).
  { destruct (securityFeaturesCoverage_formula n m Hw Hn) as [Fpos Fzero].
    destruct (Z.eq_dec (totalRepos m) 0) as [Ez|Ez].
    - rewrite (Fzero Ez). lia.
    - rewrite Fpos by lia.
      unfold singleTruncation, securityFeatureCounters, exact_sum.
      simpl fold_right. split.
      + apply Z.div_pos; lia.
      + apply Z.div_le_upper_bound; lia. }
  unfold reportPercentages, populatePosture, toBranchProtectionRules,
    toSecurityFeatures. simpl.
  rewrite add_small by (unfold in_range, min_int, max_int in *; lia).
  rewrite Hsum.
  forall_to_conj.
  repeat split; try (apply percent_unit_interval; lia); apply Hcov.
Qed.

End ReportFacts.

Lemma Collect_percentages_in_range_witness :
  let c :=
    Samples.collector "test-org" ["prod-*"] []
      (Samples.mockGitHubClient (Samples.knownOrg true)
         [[Samples.prodA]; [Samples.prodB; Samples.testC]] None
         Samples.twoSettings ["prod-b"]) in
  exists posture,
    fst (Collect c Samples.now tt) = Report posture /\
    Forall (fun p => 0 <= p <= 100) (reportPercentages posture).
Proof.
  intros c.
  destruct (fst (Collect c Samples.now tt)) as [posture|err] eqn:E;
    [|vm_compute in E; discriminate].
  exists posture. split; [reflexivity|].
  apply (Collect_percentages_in_range c Samples.now tt tt tt
           {| TwoFactorRequired := Some true |}
           [[Samples.prodA]; [Samples.prodB; Samples.testC]] posture).
  - reflexivity.
  - reflexivity.
  - unfold max_int. simpl. lia.
  - exact E.
Defined.

(** ** The scope filter, further *)

Section ScopeFacts.

Context {W : Type}.

Lemma MatchesPattern_wildcard name : MatchesPattern name "*" = true.
Proof. reflexivity. Qed.

Lemma processAll_accept_all inc exc observed :
  (forall repo, In repo observed ->
                ShouldIncludeRepo (Name repo) inc exc = true) ->
  forall m,
  excludedRepos (processAll inc exc observed m) = excludedRepos m /\
  repos (processAll inc exc observed m)
  = (repos m ++ map repoIdentity observed)%list.
Proof.
  induction observed as [|repo rest IH]; intros Hall m.
  - simpl. rewrite app_nil_r. split; reflexivity.
  - unfold processAll. simpl fold_left. fold (processAll inc exc rest).
    destruct (IH (fun r Hr => Hall r (or_intror Hr))
                 (processRepository repo inc exc m)) as [I1 I2].
    unfold processAll in I1, I2. rewrite I1, I2.
    unfold processRepository. rewrite (Hall repo (or_introl eq_refl)). simpl.
    unfold countVulnerabilityAlerts, countBranchProtection.
    destruct (BranchProtection repo); simpl; rewrite <- app_assoc;
      split; reflexivity.
Qed.

(** X5: a collector configured with no include and no exclude patterns
    leaves no repository out, whatever its name: at the end of the
    enumeration the excluded count is zero and the identity list names
    every repository of every page, in order. *)
Theorem default_scope_keeps_every_repository (c : Collector W)
  (pages : list (list Repository)) :
  ConfigIncludePatterns (config c) = [] ->
  ConfigExcludePatterns (config c) = [] ->
  excludedRepos (enumerated c pages) = 0 /\
  repos (enumerated c pages) = map repoIdentity (List.concat pages).
Proof.
  intros Hi He. unfold enumerated, effectiveIncludePatterns.
  rewrite Hi, He, processPages_processAll.
  apply (processAll_accept_all [DefaultIncludePattern] [] (List.concat pages)).
  intros repo _. reflexivity.
Qed.

(** X6: the scope filter looks at the patterns as sets: two
    configurations whose include lists have the same members and whose
    exclude lists have the same members decide alike, whatever the order
    and the repetitions. *)
Theorem ShouldIncludeRepo_pattern_sets (repoName : string)
  (inc inc' exc exc' : list string) :
  (forall p, In p inc <-> In p inc') ->
  (forall p, In p exc <-> In p exc') ->
  ShouldIncludeRepo repoName inc exc = ShouldIncludeRepo repoName inc' exc'.
Proof.
  intros Hi He.
  assert (A : forall l l', (forall p, In p l <-> In p l') ->
                           anyMatches repoName l = anyMatches repoName l').
  { intros l l' H.
    destruct (anyMatches repoName l) eqn:E1, (anyMatches repoName l') eqn:E2;
      try reflexivity.
    - apply anyMatches_true in E1. destruct E1 as (p & Hin & Hm).
      rewrite anyMatches_false in E2. rewrite (E2 p (proj1 (H p) Hin)) in Hm.
      discriminate.
    - apply anyMatches_true in E2. destruct E2 as (p & Hin & Hm).
      rewrite anyMatches_false in E1. rewrite (E1 p (proj2 (H p) Hin)) in Hm.
      discriminate. }
  unfold ShouldIncludeRepo. rewrite (A inc inc' Hi), (A exc exc' He).
  reflexivity.
Qed.

(** X7: more exclude patterns never let a repository in, and more
    include patterns never keep one out. *)
Theorem ShouldIncludeRepo_monotone (repoName : string)
  (inc exc moreInc moreExc : list string) :
  (ShouldIncludeRepo repoName inc (exc ++ moreExc) = true ->
   ShouldIncludeRepo repoName inc exc = true) /\
  (ShouldIncludeRepo repoName inc exc = true ->
   ShouldIncludeRepo repoName (inc ++ moreInc) exc = true).
Proof.
  assert (A : forall l l', anyMatches repoName (l ++ l')
                           = anyMatches repoName l || anyMatches repoName l').
  { intros l l'. induction l as [|p l IH]; simpl; [reflexivity|].
    destruct (MatchesPattern repoName p); [reflexivity|exact IH]. }
  unfold ShouldIncludeRepo. rewrite !A. split.
  - destruct (anyMatches repoName exc); simpl; [discriminate|].
    destruct (anyMatches repoName moreExc); [discriminate|auto].
  - destruct (anyMatches repoName exc); [discriminate|].
    destruct (anyMatches repoName inc); [reflexivity|discriminate].
Qed.

End ScopeFacts.

Lemma default_scope_keeps_every_repository_witness :
  let c :=
    Samples.collector "test-org" [] []
      (Samples.mockGitHubClient (Samples.knownOrg true) [] None
                                Samples.noSettings []) in
  let pages := [[Samples.prodA]; [Samples.testC; Samples.prodB]] in
  excludedRepos (enumerated c pages) = 0 /\
  List.length (repos (enumerated c pages)) = 3%nat.
Proof.
  intros c pages.
  destruct (default_scope_keeps_every_repository c pages eq_refl eq_refl)
    as [H0 H1].
  split; [exact H0|]. rewrite H1. reflexivity.
Defined.

Lemma ShouldIncludeRepo_pattern_sets_witness :
  ShouldIncludeRepo "prod-a" ["prod-*"; "svc-*"] ["*-old"; "tmp-?"]
  = ShouldIncludeRepo "prod-a" ["svc-*"; "prod-*"; "svc-*"] ["tmp-?"; "*-old"].
Proof.
  apply ShouldIncludeRepo_pattern_sets; intros p; simpl; tauto.
Defined.

Lemma ShouldIncludeRepo_monotone_witness :
  ShouldIncludeRepo "prod-a" ["prod-*"] [] = true /\
  ShouldIncludeRepo "prod-a" ["prod-*"; "svc-*"] ["*-old"] = true.
Proof.
  assert (K : ShouldIncludeRepo "prod-a" ["prod-*"] ["*-old"] = true)
    by reflexivity.
  split.
  - apply (proj1 (ShouldIncludeRepo_monotone "prod-a" ["prod-*"] []
                    [] ["*-old"])).
    exact K.
  - apply (proj2 (ShouldIncludeRepo_monotone "prod-a" ["prod-*"] ["*-old"]
                    ["svc-*"] [])).
    exact K.
Defined.

(** ** The pattern matcher, further *)

Section LiteralPatterns.

Lemma compileGlob_literal_match p :
  is_literal p = true ->
  forall b s,
  Regexp.match_here (compileGlob p ++ [Regexp.EndText])%list b s
  = (s =? p)%string.
Proof.
  induction p as [|c p IH]; intros Hl b s.
  - destruct s; reflexivity.
  - simpl in Hl. apply andb_true_iff in Hl. destruct Hl as [Hl Hp].
    apply andb_true_iff in Hl. destruct Hl as [Hs Hq].
    apply negb_true_iff in Hs. apply negb_true_iff in Hq.
    simpl compileGlob. rewrite Hs, Hq.
    destruct s as [|d s]; [reflexivity|].
    simpl. rewrite (IH Hp). reflexivity.
Qed.

(** X8: an ASCII pattern of ordinary size without [*] and [?] is a
    plain comparison: an ASCII name matches exactly when it is the
    pattern, character for character.  The characters that mean
    something in a regular expression are inert, and so is a line
    feed. *)
Theorem MatchesPattern_literal (name pattern : string) :
  is_ascii name = true ->
  is_ascii pattern = true ->
  ordinary_size pattern ->
  is_literal pattern = true ->
  MatchesPattern name pattern = (name =? pattern)%string.
Proof.
  intros _ _ _ Hl. unfold MatchesPattern.
  destruct (String.eqb_spec pattern "*") as [->|_]; [discriminate|].
  rewrite Compile_regexPattern, MatchString_anchored.
  apply compileGlob_literal_match. exact Hl.
Qed.

End LiteralPatterns.

Lemma ordinary_size_short (pattern : string) :
  (String.length pattern <= 1000)%nat -> ordinary_size pattern.
Proof. unfold ordinary_size, maxPatternLength. lia. Qed.

Lemma MatchesPattern_literal_witness :
  MatchesPattern "repo.name" "repo.name" = true /\
  MatchesPattern "repoXname" "repo.name" = false /\
  MatchesPattern "a+b" "a+b(c)[d]$" = false.
Proof.
  assert (S1 : ordinary_size "repo.name")
    by (apply ordinary_size_short; simpl; lia).
  assert (S2 : ordinary_size "a+b(c)[d]$")
    by (apply ordinary_size_short; simpl; lia).
  split; [|split].
  - rewrite (MatchesPattern_literal "repo.name" "repo.name"
               eq_refl eq_refl S1 eq_refl).
    reflexivity.
  - rewrite (MatchesPattern_literal "repoXname" "repo.name"
               eq_refl eq_refl S1 eq_refl).
    reflexivity.
  - rewrite (MatchesPattern_literal "a+b" "a+b(c)[d]$"
               eq_refl eq_refl S2 eq_refl).
    reflexivity.
Defined.

Lemma regexPattern_compiles_witness :
  exists re,
    Regexp.Compile (regexPattern "a.b*[c]?(d|e)\^$") = Ok re /\
    List.length re = 18%nat.
Proof.
  assert (S1 : ordinary_size "a.b*[c]?(d|e)\^$")
    by (apply ordinary_size_short; simpl; lia).
  destruct (regexPattern_compiles "a.b*[c]?(d|e)\^$" eq_refl S1) as [re H].
  exists re. split; [exact H|].
  vm_compute in H. injection H as <-. reflexivity.
Defined.

Lemma MatchesPattern_glob_witness :
  MatchesPattern "test-repo-v1" "test-*-v?"
  = spec_matches "test-repo-v1" "test-*-v?".
Proof.
  apply MatchesPattern_glob; try reflexivity.
  apply ordinary_size_short. simpl. lia.
Defined.

(** ** The client: pagination *)

Section PaginationFacts.

Context {W St : Type}.

(** The bound on the number of queries belongs to the model, not to the
    code: a run that is over within the bound is the same under a larger
    one. *)
Lemma ClientFetchRepositoriesLoop_more_fuel (c : Client W) org
  (callback : list Repository -> St -> option error * St) fuel :
  forall cursor st w r,
  ClientFetchRepositoriesLoop c fuel org callback cursor st w = Some r ->
  ClientFetchRepositoriesLoop c (S fuel) org callback cursor st w = Some r.
Proof.
  induction fuel as [|fuel IH]; intros cursor st w r H; [discriminate|].
  simpl in H. cbn [ClientFetchRepositoriesLoop].
  destruct (graphql c org cursor w) as [[query|err] w']; [|exact H].
  destruct (callback (Nodes query) st) as [[err|] st']; [exact H|].
  destruct (HasNextPage query); simpl in *; [|exact H].
  apply IH. exact H.
Qed.

Lemma delivers_loop (c : Client W) org (f : St -> list Repository -> St)
  cursor w pages err w' :
  delivers c org cursor w pages err w' ->
  forall st,
  ClientFetchRepositoriesLoop c (S (List.length pages)) org (foldCallback f)
                              cursor st w
  = Some ((err, fold_left f pages st), w').
Proof.
  induction 1 as [cursor w err w' Hq|cursor w query w' Hq Hn
                  |cursor w query w' pages err w'' Hq Hn Hd IH]; intros st.
  - simpl. rewrite Hq. reflexivity.
  - cbn [ClientFetchRepositoriesLoop]. rewrite Hq. unfold foldCallback.
    rewrite Hn. reflexivity.
  - simpl List.length. cbn [ClientFetchRepositoriesLoop]. rewrite Hq.
    unfold foldCallback at 1. rewrite Hn. simpl negb. cbv iota.
    simpl fold_left. apply IH.
Qed.

Lemma loop_delivers (c : Client W) org (f : St -> list Repository -> St) fuel :
  forall cursor st w err st' w',
  ClientFetchRepositoriesLoop c fuel org (foldCallback f) cursor st w
  = Some ((err, st'), w') ->
  exists pages,
    delivers c org cursor w pages err w' /\
    st' = fold_left f pages st /\
    (List.length pages <= fuel)%nat.
Proof.
  induction fuel as [|fuel IH]; intros cursor st w err st' w' H; [discriminate|].
  cbn [ClientFetchRepositoriesLoop] in H.
  destruct (graphql c org cursor w) as [[query|e] w1] eqn:Hq.
  - unfold foldCallback at 1 in H.
    destruct (HasNextPage query) eqn:Hn; simpl in H.
    + destruct (IH _ _ _ _ _ _ H) as (pages & Hd & Hs & Hl).
      exists (Nodes query :: pages). split; [|split].
      * eapply delivers_next; eassumption.
      * exact Hs.
      * simpl. lia.
    + injection H as <- <- <-. exists [Nodes query]. split; [|split].
      * eapply delivers_last; eassumption.
      * reflexivity.
      * simpl. lia.
  - injection H as <- <- <-. exists []. split; [|split].
    + apply delivers_error. exact Hq.
    + reflexivity.
    + simpl. lia.
Qed.

(** X10: with a callback that folds the pages and never fails (the one
    [Collect] passes), [FetchRepositories] returns [err] and leaves the
    callback's state at [st'] and the world at [w'] under some bound
    exactly when the server delivers a sequence of pages ending with
    [err] and the world [w'], and [st'] is the fold of those pages, in
    order, over the initial state.  The first query carries no cursor
    and each later one the end cursor of the page before. *)
Theorem ClientFetchRepositories_delivers (c : Client W) (org : string)
  (f : St -> list Repository -> St) (st st' : St) (w w' : W)
  (err : option error) :
  (exists fuel,
     ClientFetchRepositories c fuel org (foldCallback f) st w
     = Some ((err, st'), w')) <->
  (exists pages,
     delivers c org None w pages err w' /\ st' = fold_left f pages st).
Proof.
  unfold ClientFetchRepositories. split.
  - intros [fuel H].
    destruct (loop_delivers c org f fuel _ _ _ _ _ _ H) as (pages & Hd & Hs & _).
    exists pages. split; assumption.
  - intros (pages & Hd & ->).
    exists (S (List.length pages)). apply delivers_loop. exact Hd.
Qed.

End PaginationFacts.

Lemma ClientFetchRepositories_delivers_witness :
  exists pages,
    delivers Samples.pagedClient "test-org" None 0%nat pages None 2%nat /\
    processPages ["prod-*"] [] newMetrics pages
    = processAll ["prod-*"] [] [Samples.prodA; Samples.prodB; Samples.testC]
                 newMetrics.
Proof.
  assert (H : exists fuel,
             ClientFetchRepositories Samples.pagedClient fuel "test-org"
               (foldCallback (processPage ["prod-*"] [])) newMetrics 0%nat
             = Some ((None,
                      processAll ["prod-*"] []
                        [Samples.prodA; Samples.prodB; Samples.testC] newMetrics),
                     2%nat)).
  { exists 2%nat. vm_compute. reflexivity. }
  apply (proj1 (ClientFetchRepositories_delivers Samples.pagedClient "test-org"
                  (processPage ["prod-*"] []) newMetrics _ 0%nat 2%nat None)) in H.
  destruct H as (pages & Hd & He). exists pages. split; [exact Hd|].
  symmetry. exact He.
Defined.

(** ** The client: REST requests *)

Section RestFacts.

Context {W : Type}.

Lemma ClientFetchOrgSecurity_Ok
  (rest : string -> W -> result (option bool) * W) org w :
  exists orgSecurity, fst (ClientFetchOrgSecurity rest org w) = Ok orgSecurity.
Proof.
  unfold ClientFetchOrgSecurity.
  destruct (rest org w) as [r w']. eexists. reflexivity.
Qed.

(** X11: [FetchOrgSecurity] of the client never returns an error.  The
    two-factor flag it reports is known, with value [b], exactly when
    the request could be built, was answered with status 200 and the
    body decoded to a document carrying the flag [b]; a refused URL, a
    transport failure, any other status (a 403 for want of permission),
    a body that does not decode or one without the field all leave it
    unknown. *)
Theorem ClientFetchOrgSecurity_known_iff (c : Client W) (org : string) (w : W) :
  exists orgSecurity,
    fst (ClientFetchOrgSecurity (fetchOrgTwoFactorREST c) org w) = Ok orgSecurity /\
    forall b,
      TwoFactorRequired orgSecurity = Some b <->
      exists req resp w',
        NewRequestWithContext c "GET" (baseURL c ++ "/orgs/" ++ org) = Ok req /\
        httpClient c (setAPIHeaders req) w = (Ok resp, w') /\
        StatusCode resp = StatusOK /\
        decodeOrg c (Body resp) = Ok (Some b).
Proof.
  unfold ClientFetchOrgSecurity, fetchOrgTwoFactorREST.
  destruct (NewRequestWithContext c "GET" (baseURL c ++ "/orgs/" ++ org))
    as [req|e] eqn:Hreq.
  - destruct (httpClient c (setAPIHeaders req) w) as [[resp|e] w'] eqn:Hdo.
    + destruct (Z.eqb_spec (StatusCode resp) StatusOK) as [Hs|Hs]; simpl.
      * destruct (decodeOrg c (Body resp)) as [twoFA|e] eqn:Hdec; simpl.
        -- eexists. split; [reflexivity|]. simpl. intros b. split.
           ++ intros ->. exists req, resp, w'. auto.
           ++ intros (req' & resp' & w'' & H1 & H2 & H3 & H4).
              injection H1 as <-. rewrite Hdo in H2. injection H2 as <- <-.
              rewrite Hdec in H4. injection H4 as ->. reflexivity.
        -- eexists. split; [reflexivity|]. simpl. intros b. split.
           ++ discriminate.
           ++ intros (req' & resp' & w'' & H1 & H2 & H3 & H4).
              injection H1 as <-. rewrite Hdo in H2. injection H2 as <- <-.
              rewrite Hdec in H4. discriminate.
      * eexists. split; [reflexivity|]. simpl. intros b. split.
        -- discriminate.
        -- intros (req' & resp' & w'' & H1 & H2 & H3 & H4).
           injection H1 as <-. rewrite Hdo in H2. injection H2 as <- <-.
           contradiction.
    + simpl. eexists. split; [reflexivity|]. simpl. intros b. split.
      * discriminate.
      * intros (req' & resp' & w'' & H1 & H2 & _).
        injection H1 as <-. rewrite Hdo in H2. discriminate.
  - simpl. eexists. split; [reflexivity|]. simpl. intros b. split.
    + discriminate.
    + intros (req' & resp' & w'' & H1 & _). discriminate.
Qed.

(** X12: [FetchSecuritySettings] of the client fails only when the
    repository request cannot be built or sent, with that very error.
    Once the request is answered it returns settings: an answer other
    than status 200, or a body that does not decode, gives the settings
    with every feature off after that single request, the code-scanning
    endpoint not being asked. *)
Theorem ClientFetchSecuritySettings_degrades (c : Client W)
  (owner repo : string) (w : W) :
  let url := baseURL c ++ "/repos/" ++ owner ++ "/" ++ repo in
  let answer := ClientFetchSecuritySettings c owner repo w in
  (forall err,
     fst answer = Err err <->
     (NewRequestWithContext c "GET" url = Err err \/
      exists req,
        NewRequestWithContext c "GET" url = Ok req /\
        fst (httpClient c (setAPIHeaders req) w) = Err err)) /\
  (forall req resp w',
     NewRequestWithContext c "GET" url = Ok req ->
     httpClient c (setAPIHeaders req) w = (Ok resp, w') ->
     (StatusCode resp <> StatusOK \/
      exists e, decodeRepository c (Body resp) = Err e) ->
     answer = (Ok emptySettings, w')).
Proof.
  intros url answer. subst answer. unfold ClientFetchSecuritySettings. fold url.
  destruct (NewRequestWithContext c "GET" url) as [req|e] eqn:Hreq.
  - destruct (httpClient c (setAPIHeaders req) w) as [[resp|e] w1] eqn:Hdo.
    + split.
      * intros err. split.
        -- destruct (negb (StatusCode resp =? StatusOK)); [discriminate|].
           destruct (decodeRepository c (Body resp)); [|discriminate].
           destruct (checkCodeScanning c owner repo w1). discriminate.
        -- intros [H|(req' & H1 & H2)]; [discriminate|].
           injection H1 as <-. rewrite Hdo in H2. discriminate.
      * intros req' resp' w' H1 H2 H3.
        injection H1 as <-. rewrite Hdo in H2. injection H2 as <- <-.
        destruct (Z.eqb_spec (StatusCode resp) StatusOK) as [Hs|Hs]; simpl;
          [|reflexivity].
        destruct H3 as [H3|[e H3]]; [contradiction|]. rewrite H3. reflexivity.
    + split.
      * intros err. simpl. split.
        -- intros [= ->]. right. exists req. rewrite Hdo. auto.
        -- intros [H|(req' & H1 & H2)]; [discriminate|].
           injection H1 as <-. rewrite Hdo in H2. simpl in H2.
           injection H2 as ->. reflexivity.
      * intros req' resp' w' H1 H2 _.
        injection H1 as <-. rewrite Hdo in H2. discriminate.
  - split.
    + intros err. simpl. split.
      * intros [= ->]. left. reflexivity.
      * intros [H|(req' & H1 & _)]; [injection H as ->; reflexivity|discriminate].
    + intros req' resp' w' H1. discriminate.
Qed.

(** X13: against a client whose [FetchOrgSecurity] is the real one,
    [Collect] never fails in the org-security phase: the only errors it
    returns are the missing organization and a failed enumeration. *)
Theorem Collect_real_client_errors (c : Collector W) (rest : Client W)
  (now : string) (w : W) (err : error) :
  FetchOrgSecurity (client c) = ClientFetchOrgSecurity (fetchOrgTwoFactorREST rest) ->
  fst (Collect c now w) = Failed err ->
  (ConfigOrganization (config c) = "" /\ err = "organization is required") \/
  (exists e, err = Errorf "failed to fetch repositories" e).
Proof.
  intros Hc H. unfold Collect in H.
  destruct (String.eqb_spec (ConfigOrganization (config c)) "") as [E|_].
  - left. simpl in H. injection H as <-. auto.
  - rewrite Hc in H.
    destruct (ClientFetchOrgSecurity_Ok (fetchOrgTwoFactorREST rest)
                (ConfigOrganization (config c)) w) as (orgSecurity & Hok).
    destruct (ClientFetchOrgSecurity (fetchOrgTwoFactorREST rest)
                (ConfigOrganization (config c)) w) as [r w1].
    simpl in Hok. subst r.
    destruct (FetchRepositories (client c) (ConfigOrganization (config c)) w1)
      as [[pages [e|]] w2].
    + right. exists e. simpl in H. injection H as <-. reflexivity.
    + destruct (fetchSecuritySettings c _ w2). discriminate.
Qed.

End RestFacts.

Lemma ClientFetchSecuritySettings_degrades_witness :
  ClientFetchSecuritySettings Samples.pagedClient "test-org" "prod-b" 0%nat
  = (Ok emptySettings, 1%nat) /\
  ClientFetchSecuritySettings Samples.pagedClient "test-org" "prod-a" 0%nat
  = (Ok {| SecretScanning := true; SecretScanningPushProtection := false;
           DependabotSecurityUpdates := false; CodeScanningEnabled := true |},
     2%nat).
Proof.
  split; [|vm_compute; reflexivity].
  destruct (ClientFetchSecuritySettings_degrades Samples.pagedClient
              "test-org" "prod-b" 0%nat) as [_ H].
  apply (H {| Method := "GET";
              URL := "https://api.github.com/repos/test-org/prod-b";
              Header := [] |}
           {| StatusCode := 404; Body := "" |} 1%nat).
  - reflexivity.
  - vm_compute. reflexivity.
  - left. vm_compute. discriminate.
Defined.

Lemma Collect_real_client_errors_witness :
  let c := {| client := Samples.restBackedClient;
              config := Samples.testConfig "test-org" [] [] |} in
  fst (Collect c Samples.now 0%nat)
  = Failed "failed to fetch repositories: network timeout" /\
  ((ConfigOrganization (config c) = "" /\
    "failed to fetch repositories: network timeout" = "organization is required") \/
   exists e, "failed to fetch repositories: network timeout"
             = Errorf "failed to fetch repositories" e).
Proof.
  intros c.
  assert (E : fst (Collect c Samples.now 0%nat)
              = Failed "failed to fetch repositories: network timeout")
    by (vm_compute; reflexivity).
  split; [exact E|].
  exact (Collect_real_client_errors c Samples.pagedClient Samples.now 0%nat
           "failed to fetch repositories: network timeout" eq_refl E).
Defined.

(** ** Creating the collector *)

Section NewFacts.

Context {W : Type}.


(** X15: [New] answers "authentication required" exactly when the app
    credentials are incomplete (no app id or no private key) and there
    is no token; and a collector it returns carries the configuration it
    was given, unchanged. *)
Theorem New_authentication_required_iff (github : Constructors W)
  (cred : Credentials) (cfg : Config) :
  (New github cred cfg
   = Err "authentication required: provide app_id + private_key (recommended) or github_token"
   <-> ((AppID cred = 0 \/ PrivateKey cred = "") /\ GitHubToken cred = "")) /\
  (forall c, New github cred cfg = Ok c -> config c = cfg).
Proof.
  unfold New.
  destruct (negb (AppID cred =? 0) && negb (PrivateKey cred =? "")%string)
    eqn:Happ.
  - apply andb_true_iff in Happ. destruct Happ as [Ha Hk].
    apply negb_true_iff in Ha. apply negb_true_iff in Hk.
    apply Z.eqb_neq in Ha. apply String.eqb_neq in Hk.
    assert (Hno : ~ ((AppID cred = 0 \/ PrivateKey cred = "")
                     /\ GitHubToken cred = ""))
      by (intros [[H|H] _]; contradiction).
    destruct (InstallationID cred =? 0).
    + split; [|discriminate].
      split; [discriminate|intros H; contradiction].
    + destruct (NewClientFromApp github (AppID cred) (InstallationID cred)
                                 (PrivateKey cred)) as [c0|e].
      * split; [|intros c H; injection H as <-; reflexivity].
        split; [discriminate|intros H; contradiction].
      * split; [|discriminate].
        split; [|intros H; contradiction].
        unfold Errorf. simpl. discriminate.
  - assert (Hinc : AppID cred = 0 \/ PrivateKey cred = "").
    { apply andb_false_iff in Happ. destruct Happ as [H|H];
        apply negb_false_iff in H.
      - left. apply Z.eqb_eq. exact H.
      - right. apply String.eqb_eq. exact H. }
    destruct (String.eqb_spec (GitHubToken cred) "") as [Ht|Ht]; simpl.
    + split; [|discriminate].
      split; [intros _; split; assumption|reflexivity].
    + split; [|intros c H; injection H as <-; reflexivity].
      split; [discriminate|intros [_ H]; contradiction].
Qed.

End NewFacts.


Lemma New_authentication_required_iff_witness :
  let cred := {| GitHubToken := ""; AppID := 123456;
                 InstallationID := 78901234; PrivateKey := "" |} in
  New Samples.constructors cred (Samples.testConfig "test-org" [] [])
  = Err "authentication required: provide app_id + private_key (recommended) or github_token".
Proof.
  intros cred.
  apply (proj1 (New_authentication_required_iff Samples.constructors cred
                  (Samples.testConfig "test-org" [] []))).
  split; [right; reflexivity|reflexivity].
Defined.

(** ** The entry point *)

Section RunFacts.

Context {F W : Type}.

Lemma New_Ok_config (github : Constructors W) cred cfg c :
  New github cred cfg = Ok c -> config c = cfg.
Proof.
  unfold New.
  destruct (negb (AppID cred =? 0) && negb (PrivateKey cred =? "")%string).
  - destruct (InstallationID cred =? 0); [discriminate|].
    destruct (NewClientFromApp github _ _ _); [|discriminate].
    intros H. injection H as <-. reflexivity.
  - destruct (negb (GitHubToken cred =? "")%string); [|discriminate].
    intros H. injection H as <-. reflexivity.
Qed.

Lemma New_Err_form (github : Constructors W) cred cfg err :
  New github cred cfg = Err err ->
  negb (negb (AppID cred =? 0) && negb (PrivateKey cred =? "")%string)
  && negb (negb (GitHubToken cred =? "")%string) = false ->
  err = "installation_id is required when using GitHub App authentication" \/
  exists e, err = Errorf "failed to create GitHub App client" e.
Proof.
  unfold New.
  destruct (negb (AppID cred =? 0) && negb (PrivateKey cred =? "")%string).
  - intros H _. destruct (InstallationID cred =? 0).
    + injection H as <-. left. reflexivity.
    + destruct (NewClientFromApp github _ _ _) as [c|e]; [discriminate|].
      injection H as <-. right. exists e. reflexivity.
  - destruct (negb (GitHubToken cred =? "")%string); simpl; discriminate.
Qed.

Lemma Collect_Failed_form (c : Collector W) now w err :
  fst (Collect c now w) = Failed err ->
  ConfigOrganization (config c) <> "" ->
  exists e,
    err = Errorf "failed to fetch org security" e \/
    err = Errorf "failed to fetch repositories" e.
Proof.
  unfold Collect. intros H Horg.
  apply String.eqb_neq in Horg. rewrite Horg in H.
  destruct (FetchOrgSecurity (client c) (ConfigOrganization (config c)) w)
    as [[orgSecurity|e] w1].
  - destruct (FetchRepositories (client c) (ConfigOrganization (config c)) w1)
      as [[pages [e|]] w2].
    + simpl in H. injection H as <-. exists e. right. reflexivity.
    + destruct (fetchSecuritySettings c _ w2). discriminate.
  - simpl in H. injection H as <-. exists e. left. reflexivity.
Qed.

(** X16: the errors [run] hands to the SDK.  A configuration error is
    one of four (no organization, no authentication, app authentication
    without installation id, app client refused) and is returned before
    any request is made; a network error is a failed org-security fetch
    or a failed enumeration.  The checks of [run] shadow those of [New]
    and [Collect]: neither [New]'s "authentication required" nor
    [Collect]'s "organization is required" ever reaches the SDK. *)
Theorem run_error_taxonomy (truncate : F -> Z) (github : Constructors W)
  (ctx : Main.CollectorContext F W) (now : string) (w : W) :
  match fst (Main.run truncate github ctx now w) with
  | Some (Main.ConfigError message) =>
    snd (Main.run truncate github ctx now w) = w /\
    (message = "organization is required" \/
     message = "authentication required: provide GITHUB_TOKEN or app_id + GITHUB_APP_PRIVATE_KEY" \/
     message = "creating collector: installation_id is required when using GitHub App authentication" \/
     exists e,
       message = "creating collector: failed to create GitHub App client: " ++ e)
  | Some (Main.NetworkError message) =>
    exists e,
      message = "collecting posture: failed to fetch org security: " ++ e \/
      message = "collecting posture: failed to fetch repositories: " ++ e
  | _ => True
  end.
Proof.
  unfold Main.run. cbv zeta. cbn [ConfigOrganization AppID PrivateKey GitHubToken].
  destruct (String.eqb_spec (Main.getString (Main.CtxConfig ctx) "organization") "")
    as [Horg|Horg].
  { simpl. split; [reflexivity|]. left. reflexivity. }
  match goal with
  | |- context [if ?b then (Some (Main.ConfigError _), w) else _] =>
    destruct b eqn:Hauth
  end.
  { simpl. split; [reflexivity|]. right. left. reflexivity. }
  match goal with
  | |- context [New github ?cr ?cf] =>
    destruct (New github cr cf) as [c|err] eqn:HN
  end.
  - apply New_Ok_config in HN.
    destruct (Collect c now w) as [[posture|err] w'] eqn:HC.
    + destruct (Main.Emit ctx posture w') as [[e|] w'']; simpl; exact I.
    + simpl.
      assert (HF : fst (Collect c now w) = Failed err) by (rewrite HC; reflexivity).
      destruct (Collect_Failed_form c now w err HF) as [e [He|He]].
      * rewrite HN. simpl. exact Horg.
      * exists e. left. rewrite He. reflexivity.
      * exists e. right. rewrite He. reflexivity.
  - simpl. split; [reflexivity|].
    destruct (New_Err_form github _ _ err HN Hauth) as [->|[e ->]].
    + right. right. left. reflexivity.
    + right. right. right. exists e. reflexivity.
Qed.

Lemma appendStrings_stringsOf (items : list (Main.any F)) :
  forall acc, Main.appendStrings acc items = (acc ++ stringsOf items)%list.
Proof.
  induction items as [|item rest IH]; intros acc; simpl.
  - rewrite app_nil_r. reflexivity.
  - destruct item; rewrite IH; try reflexivity.
    simpl. rewrite <- app_assoc. reflexivity.
Qed.

(** X17: [getStringSlice] returns the strings of the configured list in
    their order and passes over every item that is not a string; a list
    of strings comes back as it is.  A missing key, a nil map and a
    value that is not a list (a single string, say) all read as no
    patterns. *)
Theorem getStringSlice_strings (m : string -> option (Main.any F)) (key : string) :
  (forall items,
     m key = Some (Main.AnySlice items) ->
     Main.getStringSlice (Some m) key = stringsOf items) /\
  (forall strings,
     m key = Some (Main.AnySlice (map Main.AnyString strings)) ->
     Main.getStringSlice (Some m) key = strings) /\
  ((forall items, m key <> Some (Main.AnySlice items)) ->
   Main.getStringSlice (Some m) key = []) /\
  Main.getStringSlice (@None (string -> option (Main.any F))) key = [].
Proof.
  split; [|split; [|split]].
  - intros items H. unfold Main.getStringSlice. rewrite H.
    apply appendStrings_stringsOf.
  - intros strings H. unfold Main.getStringSlice. rewrite H.
    rewrite appendStrings_stringsOf. simpl. clear H.
    induction strings as [|x l IH]; [reflexivity|].
    simpl. f_equal. exact IH.
  - intros H. unfold Main.getStringSlice.
    destruct (m key) as [[s|z|z|f|items|]|]; try reflexivity.
    exfalso. apply (H items). reflexivity.
  - reflexivity.
Qed.

End RunFacts.

Lemma run_error_taxonomy_witness :
  let ctx :=
    Samples.context (Some (Main.AnyString "test-org"))
                    (Some (Main.AnyString "123456")) "" "-----BEGIN RSA" in
  Main.run (fun z : Z => z) Samples.constructors ctx Samples.now tt
  = (Some (Main.ConfigError
             "authentication required: provide GITHUB_TOKEN or app_id + GITHUB_APP_PRIVATE_KEY"),
     tt) /\
  snd (Main.run (fun z : Z => z) Samples.constructors ctx Samples.now tt) = tt.
Proof.
  intros ctx.
  assert (T := run_error_taxonomy (fun z : Z => z) Samples.constructors ctx
                                  Samples.now tt).
  assert (E : Main.run (fun z : Z => z) Samples.constructors ctx Samples.now tt
              = (Some (Main.ConfigError
                         "authentication required: provide GITHUB_TOKEN or app_id + GITHUB_APP_PRIVATE_KEY"),
                 tt)) by (vm_compute; reflexivity).
  rewrite E in T. simpl in T. destruct T as [T _].
  split; [exact E|exact T].
Defined.

Lemma getStringSlice_strings_witness :
  let m := fun k : string =>
    if (k =? "include_patterns")%string
    then Some (Main.AnySlice [Main.AnyString "prod-*"; Main.AnyInt64 (F := Z) 7;
                              Main.AnyString "svc-*"])
    else if (k =? "exclude_patterns")%string
    then Some (Main.AnyString "*-old")
    else None in
  Main.getStringSlice (Some m) "include_patterns" = ["prod-*"; "svc-*"] /\
  Main.getStringSlice (Some m) "exclude_patterns" = [].
Proof.
  intros m.
  destruct (getStringSlice_strings m "include_patterns") as (A & _ & _ & _).
  destruct (getStringSlice_strings m "exclude_patterns") as (_ & _ & B & _).
  split.
  - apply (A [Main.AnyString "prod-*"; Main.AnyInt64 7; Main.AnyString "svc-*"]).
    reflexivity.
  - apply B. intros items. discriminate.
Defined.

Lemma coverage_divisor_nonzero_witness :
  in_range max_int /\ max_int <> 0 /\ mul max_int NumSecurityFeatures <> 0 /\
  mul max_int NumSecurityFeatures = max_int - 4.
Proof.
  assert (R : in_range max_int) by (unfold in_range, min_int, max_int; lia).
  assert (N : max_int <> 0) by (unfold max_int; lia).
  split; [exact R|]. split; [exact N|].
  split; [exact (coverage_divisor_nonzero max_int R N)|].
  vm_compute. reflexivity.
Defined.

Section CodeScanningFacts.

Context {W : Type}.

(** X21: code scanning is reported as enabled exactly when the
    default-setup request could be built, was answered with status 200
    and decodes to the state "configured"; every failure on the way
    reads as not enabled and none is an error. *)
Theorem checkCodeScanning_true_iff (c : Client W) (owner repo : string) (w : W) :
  fst (checkCodeScanning c owner repo w) = true <->
  exists req resp w',
    NewRequestWithContext c "GET"
      (baseURL c ++ "/repos/" ++ owner ++ "/" ++ repo
       ++ "/code-scanning/default-setup") = Ok req /\
    httpClient c (setAPIHeaders req) w = (Ok resp, w') /\
    StatusCode resp = StatusOK /\
    decodeDefaultSetup c (Body resp) = Ok StateConfigured.
Proof.
  unfold checkCodeScanning.
  destruct (NewRequestWithContext c "GET" _) as [req|e] eqn:Hreq.
  - destruct (httpClient c (setAPIHeaders req) w) as [[resp|e] w1] eqn:Hdo.
    + destruct (Z.eqb_spec (StatusCode resp) StatusOK) as [Hs|Hs]; simpl.
      * destruct (decodeDefaultSetup c (Body resp)) as [state|e] eqn:Hdec; simpl.
        -- split.
           ++ intros H. apply String.eqb_eq in H. subst state.
              exists req, resp, w1. auto.
           ++ intros (req' & resp' & w' & H1 & H2 & H3 & H4).
              injection H1 as <-. rewrite Hdo in H2. injection H2 as <- <-.
              rewrite Hdec in H4. injection H4 as ->. apply String.eqb_refl.
        -- split; [discriminate|].
           intros (req' & resp' & w' & H1 & H2 & H3 & H4).
           injection H1 as <-. rewrite Hdo in H2. injection H2 as <- <-.
           rewrite Hdec in H4. discriminate.
      * split; [discriminate|].
        intros (req' & resp' & w' & H1 & H2 & H3 & H4).
        injection H1 as <-. rewrite Hdo in H2. injection H2 as <- <-.
        contradiction.
    + simpl. split; [discriminate|].
      intros (req' & resp' & w' & H1 & H2 & _).
      injection H1 as <-. rewrite Hdo in H2. discriminate.
  - simpl. split; [discriminate|].
    intros (req' & resp' & w' & H1 & _). discriminate.
Qed.

End CodeScanningFacts.

(** ** The report, from what the client delivered *)

Section ReportContents.

Context {W : Type}.

Local Arguments Z.add : simpl never.
Local Arguments Z.mul : simpl never.
Local Arguments Z.of_nat : simpl never.

Lemma fetchSecuritySettingsLoop_answers (c : Collector W) rs :
  forall m w,
  fst (fetchSecuritySettingsLoop c rs m w)
  = countAll (settingsAnswers (client c) rs w) m.
Proof.
  induction rs as [|repo rest IH]; intros m w; simpl; [reflexivity|].
  destruct (FetchSecuritySettings (client c) (owner repo) (name repo) w)
    as [[settings|e] w']; simpl; apply IH.
Qed.

Lemma settingsAnswers_length (c : GitHubClient W) rs :
  forall w, (List.length (settingsAnswers c rs w) <= List.length rs)%nat.
Proof.
  induction rs as [|repo rest IH]; intros w; simpl; [lia|].
  destruct (FetchSecuritySettings c (owner repo) (name repo) w)
    as [[settings|e] w']; simpl; specialize (IH w'); lia.
Qed.

Lemma countWhere_le_length {A : Type} (p : A -> bool) l :
  countWhere p l <= Z.of_nat (List.length l).
Proof.
  unfold countWhere. assert (H := filter_length_le p l). lia.
Qed.

Lemma countWhere_partition {A : Type} (p : A -> bool) l :
  countWhere p l + countWhere (fun x => negb (p x)) l = Z.of_nat (List.length l).
Proof.
  induction l as [|x l IH]; [reflexivity|].
  rewrite !countWhere_cons. simpl List.length. rewrite Nat2Z.inj_succ.
  destruct (p x); simpl Z.b2z; lia.
Qed.

Lemma percent_ratio count total :
  0 <= count -> count * 100 <= max_int -> 0 <= total ->
  percent count total = ratio count total.
Proof.
  intros Hc Hm Ht. unfold ratio.
  destruct (Z.eqb_spec total 0) as [->|Hz]; [apply percent_zero_total|].
  apply percent_div; lia.
Qed.

(** The state the report is built from, counted out: after a run of
    [Collect] in which the client delivered [pages], the counters are
    the numbers of accepted repositories, and of settings answers, with
    the respective flag. *)
Lemma settled_counts (c : Collector W) (pages : list (list Repository)) (w2 : W) :
  let inc := effectiveIncludePatterns (config c) in
  let exc := ConfigExcludePatterns (config c) in
  let observed := List.concat pages in
  let kept := accepted inc exc observed in
  let answers := settingsAnswers (client c) (map repoIdentity kept) w2 in
  let m := settled c pages w2 in
  Z.of_nat (List.length observed) * 2 <= max_int ->
  (Z.of_nat (List.length answers) <= Z.of_nat (List.length kept)
   /\ Z.of_nat (List.length kept) <= Z.of_nat (List.length observed)) /\
  totalRepos m = Z.of_nat (List.length kept) /\
  excludedRepos m
  = countWhere (fun r => negb (ShouldIncludeRepo (Name r) inc exc)) observed /\
  vulnerabilityAlertsEnabled m = countWhere HasVulnerabilityAlertsEnabled kept /\
  branchProtectionEnabled m = countWhere (ruleHas (fun _ => true)) kept /\
  requirePullRequest m = countWhere (ruleHas RequiresApprovingReviews) kept /\
  requireApprovingReviews m = countWhere (ruleHas RequiresApprovingReviews) kept /\
  dismissStaleReviews m = countWhere (ruleHas DismissesStaleReviews) kept /\
  requireCodeOwnerReviews m = countWhere (ruleHas RequiresCodeOwnerReviews) kept /\
  requireStatusChecks m = countWhere (ruleHas RequiresStatusChecks) kept /\
  requireSignedCommits m = countWhere (ruleHas RequiresCommitSignatures) kept /\
  enforceAdmins m = countWhere (ruleHas IsAdminEnforced) kept /\
  codeScanningEnabled m = countWhere CodeScanningEnabled answers /\
  secretScanningEnabled m = countWhere SecretScanning answers /\
  secretScanningPushProtection m
  = countWhere SecretScanningPushProtection answers /\
  dependabotSecurityUpdatesEnabled m
  = countWhere DependabotSecurityUpdates answers.
Proof.
  intros inc exc observed kept answers m Hn.
  destruct (processAll_counts inc exc observed 0 newMetrics
              newMetrics_fields_within ltac:(unfold max_int in *; lia))
    as (P0 & P1 & P2 & P3 & P4 & P5 & P6 & P7 & P8 & P9 & P10 & P11 & P12
        & P13 & P14 & P15 & P16).
  assert (Em : m = countAll answers (processAll inc exc observed newMetrics)).
  { unfold m, settled, enumerated, fetchSecuritySettings.
    rewrite processPages_processAll. fold inc exc observed.
    rewrite fetchSecuritySettingsLoop_answers, P3. reflexivity. }
  assert (La : (List.length answers <= List.length kept)%nat).
  { unfold answers.
    rewrite <- (length_map repoIdentity kept).
    apply settingsAnswers_length. }
  assert (Lk : (List.length kept <= List.length observed)%nat).
  { apply filter_length_le. }
  destruct (countAll_counts answers _ _ P0 ltac:(unfold max_int in *; lia))
    as (_ & C1 & C2 & C3 & C4 & C5 & C6 & C7 & C8 & C9).
  rewrite <- Em in C1, C2, C3, C4, C5, C6, C7, C8, C9.
  unfold branchProtectionCounters in C9.
  injection C9 as D1 D2 D3 D4 D5 D6 D7 D8.
  split; [lia|].
  rewrite C1, C2, C3, C4, C5, C6, C8, D1, D2, D3, D4, D5, D6, D7, D8.
  rewrite P1, P2, P4, P5, P6, P7, P8, P9, P10, P11, P12, P13, P14, P15, P16.
  rewrite !countWhere_filter. simpl. rewrite !Z.add_0_l.
  repeat split; reflexivity.
Qed.

(** C8: the client's [FetchOrgSecurity] never fails on account of the
    two-factor read, and leaves the field nil when that read fails or
    the answer omits it.  [Collect] then returns a report, not an error,
    and copies the field into it as it is, nil or a flag.  Whatever the
    field, the rest of the report is filled from what the client
    delivered: the scope carries the patterns in force, and (for an
    enumeration short enough for the counts times five hundred to fit in
    an [int]) every percentage is the rounded-down share it is named
    after, of the accepted among the observed repositories, of the
    accepted repositories whose rule has the flag or whose alerts are
    on, and of the settings answers with the feature on, among the
    accepted repositories. *)
Theorem two_factor_required_propagates (c : Collector W) (now : string)
  (w w1 w2 : W) (orgSecurity : OrgSecurity) (pages : list (list Repository)) :
  let org := ConfigOrganization (config c) in
  let observed := List.concat pages in
  let kept :=
    accepted (effectiveIncludePatterns (config c))
             (ConfigExcludePatterns (config c)) observed in
  let answers := settingsAnswers (client c) (map repoIdentity kept) w2 in
  let included := Z.of_nat (List.length kept) in
  org <> "" ->
  FetchOrgSecurity (client c) org w = (Ok orgSecurity, w1) ->
  FetchRepositories (client c) org w1 = ((pages, None), w2) ->
  (forall (fetchOrgTwoFactorREST : string -> W -> result (option bool) * W) o w0,
     fst (ClientFetchOrgSecurity fetchOrgTwoFactorREST o w0)
     = Ok {| TwoFactorRequired :=
               match fst (fetchOrgTwoFactorREST o w0) with
               | Ok twoFA => twoFA
               | Err _ => None
               end |}) /\
  exists posture,
    fst (Collect c now w) = Report posture /\
    AccessTwoFactorRequired (PostureAccessControl posture)
    = TwoFactorRequired orgSecurity /\
    IncludePatterns (PostureScope posture) = effectiveIncludePatterns (config c) /\
    ExcludePatterns (PostureScope posture) = ConfigExcludePatterns (config c) /\
    (Z.of_nat (List.length observed) * 500 <= max_int ->
     RepositoriesCoverage (PostureScope posture)
     = ratio included (Z.of_nat (List.length observed)) /\
     PosturePosture posture
     = {| BranchProtectionCoverage :=
            ratio (countWhere (ruleHas (fun _ => true)) kept) included;
          SecurityFeaturesCoverage :=
            ratio (countWhere HasVulnerabilityAlertsEnabled kept
                   + countWhere CodeScanningEnabled answers
                   + countWhere SecretScanning answers
                   + countWhere SecretScanningPushProtection answers
                   + countWhere DependabotSecurityUpdates answers)
                  (included * 5) |} /\
     PostureBranchProtectionRules posture
     = {| PullRequestRequired :=
            ratio (countWhere (ruleHas RequiresApprovingReviews) kept) included;
          ApprovingReviews :=
            ratio (countWhere (ruleHas RequiresApprovingReviews) kept) included;
          DismissStaleReviews :=
            ratio (countWhere (ruleHas DismissesStaleReviews) kept) included;
          CodeOwnerReviews :=
            ratio (countWhere (ruleHas RequiresCodeOwnerReviews) kept) included;
          StatusChecks :=
            ratio (countWhere (ruleHas RequiresStatusChecks) kept) included;
          SignedCommits :=
            ratio (countWhere (ruleHas RequiresCommitSignatures) kept) included;
          AdminEnforcement :=
            ratio (countWhere (ruleHas IsAdminEnforced) kept) included |} /\
     PostureSecurityFeatures posture
     = {| VulnerabilityAlerts :=
            ratio (countWhere HasVulnerabilityAlertsEnabled kept) included;
          CodeScanning := ratio (countWhere CodeScanningEnabled answers) included;
          FeatureSecretScanning :=
            ratio (countWhere SecretScanning answers) included;
          FeatureSecretScanningPushProtection :=
            ratio (countWhere SecretScanningPushProtection answers) included;
          FeatureDependabotSecurityUpdates :=
            ratio (countWhere DependabotSecurityUpdates answers) included |}).
Proof.
  intros org observed kept answers included Horg H1 H2. split.
  { intros rest o w0. unfold ClientFetchOrgSecurity.
    destruct (rest o w0) as [[twoFA|e] w']; reflexivity. }
  eexists. split.
  { apply (Collect_report c now w orgSecurity w1 pages w2 Horg H1 H2). }
  split; [reflexivity|]. split; [reflexivity|]. split; [reflexivity|].
  intros Hn.
  assert (Hn2 : Z.of_nat (List.length (List.concat pages)) * 2 <= max_int).
  { fold observed. unfold max_int in *. lia. }
  assert (S := settled_counts c pages w2). cbv zeta in S.
  destruct (S Hn2)
    as ((La & Lk) & E1 & E2 & E3 & E4 & E5 & E6 & E7 & E8 & E9 & E10 & E11
        & E12 & E13 & E14 & E15).
  clear S.
  fold observed kept answers included in La, Lk, E1, E2, E3, E4, E5, E6, E7,
    E8, E9, E10, E11, E12, E13, E14, E15.
  set (inc := effectiveIncludePatterns (config c)) in *.
  set (exc := ConfigExcludePatterns (config c)) in *.
  set (m := settled c pages w2) in *.
  assert (Hp := countWhere_partition
                  (fun r => ShouldIncludeRepo (Name r) inc exc) observed).
  change (countWhere (fun r => ShouldIncludeRepo (Name r) inc exc) observed)
    with included in Hp.
  assert (B3 := countWhere_le_length HasVulnerabilityAlertsEnabled kept).
  assert (B4 := countWhere_le_length (ruleHas (fun _ => true)) kept).
  assert (B5 := countWhere_le_length (ruleHas RequiresApprovingReviews) kept).
  assert (B7 := countWhere_le_length (ruleHas DismissesStaleReviews) kept).
  assert (B8 := countWhere_le_length (ruleHas RequiresCodeOwnerReviews) kept).
  assert (B9 := countWhere_le_length (ruleHas RequiresStatusChecks) kept).
  assert (B10 := countWhere_le_length (ruleHas RequiresCommitSignatures) kept).
  assert (B11 := countWhere_le_length (ruleHas IsAdminEnforced) kept).
  assert (B12 := countWhere_le_length CodeScanningEnabled answers).
  assert (B13 := countWhere_le_length SecretScanning answers).
  assert (B14 := countWhere_le_length SecretScanningPushProtection answers).
  assert (B15 := countWhere_le_length DependabotSecurityUpdates answers).
  assert (N2 := countWhere_nonneg
                  (fun r => negb (ShouldIncludeRepo (Name r) inc exc)) observed).
  assert (N3 := countWhere_nonneg HasVulnerabilityAlertsEnabled kept).
  assert (N4 := countWhere_nonneg (ruleHas (fun _ => true)) kept).
  assert (N5 := countWhere_nonneg (ruleHas RequiresApprovingReviews) kept).
  assert (N7 := countWhere_nonneg (ruleHas DismissesStaleReviews) kept).
  assert (N8 := countWhere_nonneg (ruleHas RequiresCodeOwnerReviews) kept).
  assert (N9 := countWhere_nonneg (ruleHas RequiresStatusChecks) kept).
  assert (N10 := countWhere_nonneg (ruleHas RequiresCommitSignatures) kept).
  assert (N11 := countWhere_nonneg (ruleHas IsAdminEnforced) kept).
  assert (N12 := countWhere_nonneg CodeScanningEnabled answers).
  assert (N13 := countWhere_nonneg SecretScanning answers).
  assert (N14 := countWhere_nonneg SecretScanningPushProtection answers).
  assert (N15 := countWhere_nonneg DependabotSecurityUpdates answers).
  assert (I0 : 0 <= included) by (unfold included; lia).
  assert (Hw : fields_within (Z.of_nat (List.length observed)) m).
  { unfold fields_within, branchProtectionCounters, securityFeatureCounters.
    simpl app. forall_to_conj.
    rewrite E1, E2, E3, E4, E5, E6, E7, E8, E9, E10, E11, E12, E13, E14, E15.
    repeat split; lia. }
  destruct (securityFeaturesCoverage_formula _ m Hw Hn) as [Fpos Fzero].
  assert (Fc : securityFeaturesCoverage m
               = ratio (countWhere HasVulnerabilityAlertsEnabled kept
                        + countWhere CodeScanningEnabled answers
                        + countWhere SecretScanning answers
                        + countWhere SecretScanningPushProtection answers
                        + countWhere DependabotSecurityUpdates answers)
                       (included * 5)).
  { unfold ratio. destruct (Z.eqb_spec (included * 5) 0) as [Ez|Ez].
    - apply Fzero. lia.
    - rewrite Fpos by lia.
      unfold singleTruncation, securityFeatureCounters, exact_sum.
      simpl fold_right. rewrite E1, E3, E12, E13, E14, E15.
      f_equal. lia. }
  unfold populatePosture, toBranchProtectionRules, toSecurityFeatures.
  cbn [PostureScope PosturePosture PostureBranchProtectionRules
       PostureSecurityFeatures RepositoriesCoverage].
  fold m. rewrite Fc.
  rewrite E1, E2, E3, E4, E5, E6, E7, E8, E9, E10, E11, E12, E13, E14, E15.
  rewrite (add_small included)
    by (unfold in_range, min_int, max_int in *; lia).
  rewrite Hp.
  rewrite !percent_ratio by (unfold max_int in *; lia).
  repeat split; reflexivity.
Qed.

End ReportContents.

Lemma two_factor_required_propagates_witness :
  let pages := [[Samples.prodA; Samples.prodB]; [Samples.testC]] in
  let denied :=
    Samples.collector "test-org" [] ["test-*"]
      (Samples.partialGitHubClient (Err "org API returned status 403")
                                   pages Samples.twoSettings ["prod-b"]) in
  let disabled :=
    Samples.collector "test-org" [] ["test-*"]
      (Samples.partialGitHubClient (Ok (Some false))
                                   pages Samples.twoSettings ["prod-b"]) in
  let rules :=
    {| PullRequestRequired := 100; ApprovingReviews := 100;
       DismissStaleReviews := 50; CodeOwnerReviews := 50; StatusChecks := 100;
       SignedCommits := 50; AdminEnforcement := 50 |} in
  let features :=
    {| VulnerabilityAlerts := 50; CodeScanning := 50;
       FeatureSecretScanning := 50; FeatureSecretScanningPushProtection := 0;
       FeatureDependabotSecurityUpdates := 0 |} in
  (exists posture,
     fst (Collect denied Samples.now tt) = Report posture /\
     AccessTwoFactorRequired (PostureAccessControl posture) = None /\
     PostureScope posture
     = {| IncludePatterns := ["*"]; ExcludePatterns := ["test-*"];
          RepositoriesCoverage := 66 |} /\
     PosturePosture posture
     = {| BranchProtectionCoverage := 100; SecurityFeaturesCoverage := 30 |} /\
     PostureBranchProtectionRules posture = rules /\
     PostureSecurityFeatures posture = features) /\
  (exists posture,
     fst (Collect disabled Samples.now tt) = Report posture /\
     AccessTwoFactorRequired (PostureAccessControl posture) = Some false /\
     PosturePosture posture
     = {| BranchProtectionCoverage := 100; SecurityFeaturesCoverage := 30 |} /\
     PostureBranchProtectionRules posture = rules /\
     PostureSecurityFeatures posture = features).
Proof.
  intros pages denied disabled rules features.
  assert (Horg : "test-org" <> "") by discriminate.
  assert (Hn : Z.of_nat (List.length (List.concat pages)) * 500 <= max_int)
    by (vm_compute; discriminate).
  split.
  - destruct (two_factor_required_propagates denied Samples.now tt tt tt
                {| TwoFactorRequired := None |} pages Horg eq_refl eq_refl)
      as (_ & posture & HR & HA & HI & HE & HM).
    destruct (HM Hn) as (HC & HP & HB & HF).
    exists posture. split; [exact HR|]. split; [exact HA|].
    split.
    { destruct (PostureScope posture) as [i e r]. simpl in HI, HE, HC.
      rewrite HI, HE, HC. vm_compute. reflexivity. }
    rewrite HP, HB, HF. vm_compute. repeat split; reflexivity.
  - destruct (two_factor_required_propagates disabled Samples.now tt tt tt
                {| TwoFactorRequired := Some false |} pages Horg eq_refl eq_refl)
      as (_ & posture & HR & HA & _ & _ & HM).
    destruct (HM Hn) as (_ & HP & HB & HF).
    exists posture. split; [exact HR|]. split; [exact HA|].
    rewrite HP, HB, HF. vm_compute. repeat split; reflexivity.
Defined.
